(** * Agent_Template: the pandapower tool server and the chat orchestration node

    A shallow embedding of [backend/src/mcp/panda_mcp.py] (the analysis
    session and its six tools) and of [backend/src/agent/graph.py] (the
    [chat_node] orchestration turn), with the properties the specification
    states about them.

    Python objects that are mutated in place (pandapower networks) live in
    a heap of cells addressed by references; the module-level global
    [_current_net] holds a reference or [None].  Calls into pandapower, into
    the language model and into the MCP tool transport are parameters of
    the development (Section variables); every such call is recorded in a
    log so that "how many times" and "never called" are statements about
    the log. *)

From Stdlib Require Import ZArith String Ascii List Bool Lia.
From Stdlib Require Import Floats.PrimFloat.
From stdpp Require Import base list pretty gmap.

Set Warnings "-inexact-float".
Local Open Scope string_scope.
Local Open Scope list_scope.

(** ** Python exceptions

    Only the classes that some [except] clause of the two files tells apart
    are distinguished; every other subclass of [Exception] is
    [OtherException].  [exn_str] is [str(e)]. *)

Inductive ExnClass : Type :=
| FileNotFoundError
| ValueError
| RuntimeError
| KeyError
| AttributeError
| OtherException.

Record Exn : Type := mkExn { exn_class : ExnClass; exn_str : string }.

Inductive Res (A : Type) : Type :=
| Ok (a : A)
| Raise (e : Exn).
Arguments Ok {A} a.
Arguments Raise {A} e.

(** [str.endswith] *)
Definition endswith (s suffix : string) : bool :=
  let n := String.length s in
  let m := String.length suffix in
  (m <=? n)%nat && String.eqb (substring (n - m) m s) suffix.

(** ** Effects: a state, and an exception or a value

    A Python body is a function from the state before to its outcome and
    the state after; what it did to the state before raising stays done. *)

Definition M (St A : Type) : Type := St -> Res A * St.

Definition ret {St A} (a : A) : M St A := fun s => (Ok a, s).

Definition raise {St A} (e : Exn) : M St A := fun s => (Raise e, s).

Definition bind {St A B} (m : M St A) (k : A -> M St B) : M St B :=
  fun s => match m s with
           | (Ok a, s') => k a s'
           | (Raise e, s') => (Raise e, s')
           end.

(** [try: body  except Exception as e: handler e] *)
Definition try_except {St A} (body : M St A) (handler : Exn -> M St A) : M St A :=
  fun s => match body s with
           | (Ok a, s') => (Ok a, s')
           | (Raise e, s') => handler e s'
           end.

Definition of_sum {St A} (x : Exn + A) : M St A :=
  match x with
  | inl e => raise e
  | inr a => ret a
  end.

Declare Scope py_scope.
Delimit Scope py_scope with py.
Notation "x <- c1 ;; c2" := (bind c1 (fun x => c2))
  (at level 100, c1 at next level, right associativity) : py_scope.
Notation "c1 ;; c2" := (bind c1 (fun _ => c2))
  (at level 100, right associativity) : py_scope.
Local Open Scope py_scope.

(** ** The tool server: [panda_mcp.py] *)

Module Panda.

(** *** Data *)

(** A row of an element table ([net.line], [net.trafo], ...): its index
    label and the [in_service] column, the only column the server writes. *)
Record Row : Type := mkRow { label : Z; in_service : bool }.
Definition Table : Type := list Row.

(** Rows of the result tables: [res_bus.vm_pu], [res_line.loading_percent]. *)
Record ResBusRow : Type := mkResBus { rb_label : Z; vm_pu : float }.
Record ResBranchRow : Type := mkResBranch { rl_label : Z; loading_percent : float }.

(** A [pandapowerNet].  The six element tables the server reads by
    attribute are fields; [other_tables] holds every further table that
    [net[name]] can reach. *)
Record Net : Type := mkNet {
  bus : Table;
  line : Table;
  trafo : Table;
  gen : Table;
  load : Table;
  switch : Table;
  other_tables : list (string * Table);
  res_bus : list ResBusRow;
  res_line : list ResBranchRow;
  res_trafo : list ResBranchRow;
  converged : bool
}.

(** Keyword arguments of [pp.runpp] as [run_power_flow] passes them. *)
Record PFParams : Type := mkParams {
  algorithm : string;
  calculate_voltage_angles : bool;
  max_iteration : Z;
  tolerance_mva : float
}.

(** The defaults of the tool signature: ['nr'], [True], [10], [1e-8]. *)
Definition default_params : PFParams :=
  {| algorithm := "nr"; calculate_voltage_angles := true;
     max_iteration := 10; tolerance_mva := 1e-8%float |}.

Definition ref : Type := nat.

(** Calls that leave the process: reading a file, running the solver on
    the object behind a reference ([None]: pandapower's own defaults). *)
Inductive Event : Type :=
| EvFromJson (file_path : string)
| EvFromPickle (file_path : string)
| EvRunpp (r : ref) (params : option PFParams).

(** The state of the server process: the objects, the global
    [_current_net], and the calls made so far. *)
Record Session : Type := mkSession {
  heap : list Net;
  _current_net : option ref;
  log : list Event
}.

(** The process starts with [_current_net = None]. *)
Definition initial_session : Session :=
  {| heap := []; _current_net := None; log := [] |}.

(** *** Tool results: the dictionaries the tools return *)

Inductive Status : Type := success | error.

Record NetworkInfo : Type := mkInfo { buses : nat; lines : nat; trafos : nat }.

Record PowerFlowResults : Type := mkPF {
  bus_results : list ResBusRow;
  line_results : list ResBranchRow;
  trafo_results : list ResBranchRow;
  pf_converged : bool
}.

Record Violations : Type := mkViol {
  voltage_violations : list Z;
  loading_violations : list Z
}.

(** One entry of the contingency [results] list: the keys ['contingency']
    and ['converged'] are always there, then either ['violations'] or
    ['error']. *)
Record ContingencyOutcome : Type := mkOutcome {
  contingency : string;
  c_converged : bool;
  violations : option Violations;
  c_error : option string
}.

Record NetworkDump : Type := mkDump {
  d_buses : nat; d_lines : nat; d_trafos : nat;
  d_generators : nat; d_loads : nat; d_switches : nat;
  bus_data : Table; line_data : Table; trafo_data : Table
}.

(** The keys besides ["status"] and ["message"]. *)
Inductive Payload : Type :=
| NoPayload
| NetworkInfoPayload (network_info : NetworkInfo)
| PowerFlowPayload (results : PowerFlowResults)
| ContingencyPayload (results : list ContingencyOutcome)
| InfoPayload (info : NetworkDump)
| LoadAndRunPayload (network_info : NetworkInfo) (power_flow_results : PowerFlowResults).

Record ToolResult : Type := mkResult {
  status : Status;
  message : string;
  payload : Payload
}.

Definition error_result (msg : string) : ToolResult :=
  {| status := error; message := msg; payload := NoPayload |}.

(** A tool function: its [except] clauses end in a catch-all and every
    handler returns a dictionary, so the function always returns one. *)
Definition tool (body : M Session ToolResult) (handler : Exn -> ToolResult)
  : Session -> ToolResult * Session :=
  fun s => match body s with
           | (Ok a, s') => (a, s')
           | (Raise e, s') => (handler e, s')
           end.

(** *** The heap *)

Definition alloc (net : Net) : M Session ref :=
  fun s => (Ok (length (heap s)),
            {| heap := heap s ++ [net];
               _current_net := _current_net s; log := log s |}).

(** Following a reference.  References are only made by [alloc], so the
    [None] branch is not reached from [initial_session]. *)
Definition deref (r : ref) : M Session Net :=
  fun s => match heap s !! r with
           | Some net => (Ok net, s)
           | None => (Raise (mkExn OtherException "invalid reference"), s)
           end.

Definition store (r : ref) (net : Net) : M Session unit :=
  fun s => (Ok tt,
            {| heap := <[r := net]> (heap s);
               _current_net := _current_net s; log := log s |}).

Definition set_current_net (r : ref) : M Session unit :=
  fun s => (Ok tt,
            {| heap := heap s; _current_net := Some r; log := log s |}).

Definition emit (ev : Event) : M Session unit :=
  fun s => (Ok tt,
            {| heap := heap s; _current_net := _current_net s;
               log := log s ++ [ev] |}).

(** [net.deepcopy()] *)
Definition deepcopy (r : ref) : M Session ref :=
  net <- deref r ;; alloc net.

(** [_get_network] *)
Definition _get_network : M Session ref :=
  fun s => match _current_net s with
           | None =>
               (Raise (mkExn RuntimeError
                  "No pandapower network is currently loaded. Please create or load a network first."), s)
           | Some r => (Ok r, s)
           end.

(** The global used as an object without the [None] check of
    [_get_network]: passing [None] on fails inside the callee. *)
Definition _current_net_ref : M Session ref :=
  fun s => match _current_net s with
           | None =>
               (Raise (mkExn AttributeError
                  "'NoneType' object has no attribute 'bus'"), s)
           | Some r => (Ok r, s)
           end.

(** Reading the global directly, as [_current_net.bus] does. *)
Definition current_net_object : M Session Net :=
  fun s => match _current_net s with
           | None =>
               (Raise (mkExn AttributeError
                  "'NoneType' object has no attribute 'bus'"), s)
           | Some r => deref r s
           end.

(** *** Tables of a network *)

Fixpoint assoc (name : string) (l : list (string * Table)) : option Table :=
  match l with
  | [] => None
  | (k, t) :: rest => if String.eqb k name then Some t else assoc name rest
  end.

Fixpoint assoc_set (name : string) (t' : Table) (l : list (string * Table))
  : list (string * Table) :=
  match l with
  | [] => []
  | (k, t) :: rest =>
      if String.eqb k name then (k, t') :: rest
      else (k, t) :: assoc_set name t' rest
  end.

(** [net[element_type]], and [net[element_type] = t] below. *)
Definition get_table (net : Net) (element_type : string) : option Table :=
  if String.eqb element_type "bus" then Some (bus net)
  else if String.eqb element_type "line" then Some (line net)
  else if String.eqb element_type "trafo" then Some (trafo net)
  else if String.eqb element_type "gen" then Some (gen net)
  else if String.eqb element_type "load" then Some (load net)
  else if String.eqb element_type "switch" then Some (switch net)
  else assoc element_type (other_tables net).

Definition set_table (net : Net) (element_type : string) (t : Table) : Net :=
  let upd name old := if String.eqb element_type name then t else old in
  let is_field :=
    List.existsb (String.eqb element_type)
      ["bus"; "line"; "trafo"; "gen"; "load"; "switch"] in
  {| bus := upd "bus" (bus net);
     line := upd "line" (line net);
     trafo := upd "trafo" (trafo net);
     gen := upd "gen" (gen net);
     load := upd "load" (load net);
     switch := upd "switch" (switch net);
     other_tables :=
       if is_field then other_tables net
       else assoc_set element_type t (other_tables net);
     res_bus := res_bus net; res_line := res_line net;
     res_trafo := res_trafo net; converged := converged net |}.

(** [table.at[idx, 'in_service'] = False] *)
Definition set_out_of_service (t : Table) (idx : Z) : Table :=
  List.map (fun row => if Z.eqb (label row) idx
                       then {| label := label row; in_service := false |}
                       else row) t.

(** [table.index] *)
Definition index (t : Table) : list Z := List.map label t.

(** *** The tools *)

Section Tools.

(** pandapower, as the server calls it.  [from_json] and [from_pickle]
    read a file and return a network or raise; [runpp] works on the network
    object in place and may raise after having changed it: it is given as
    the object's value afterwards and the exception, if any.  Its first
    argument is the keyword arguments, [None] when the call passes none. *)
Variable from_json : string -> Exn + Net.
Variable from_pickle : string -> Exn + Net.
Variable runpp : option PFParams -> Net -> Net * option Exn.

(** [pp.from_json(file_path)]: a fresh object. *)
Definition pp_from_json (file_path : string) : M Session ref :=
  emit (EvFromJson file_path) ;;
  net <- of_sum (from_json file_path) ;;
  alloc net.

(** [pp.from_pickle(file_path)] *)
Definition pp_from_pickle (file_path : string) : M Session ref :=
  emit (EvFromPickle file_path) ;;
  net <- of_sum (from_pickle file_path) ;;
  alloc net.

(** [pp.runpp(net, **params)] on the object behind [r]. *)
Definition pp_runpp (r : ref) (params : option PFParams) : M Session unit :=
  net <- deref r ;;
  emit (EvRunpp r params) ;;
  store r (fst (runpp params net)) ;;
  match snd (runpp params net) with
  | Some e => raise e
  | None => ret tt
  end.

Definition network_info_of (net : Net) : NetworkInfo :=
  {| buses := length (bus net);
     lines := length (line net);
     trafos := length (trafo net) |}.

Definition power_flow_results_of (net : Net) : PowerFlowResults :=
  {| bus_results := res_bus net;
     line_results := res_line net;
     trafo_results := res_trafo net;
     pf_converged := converged net |}.

(** [create_empty_network] *)
Variable pp_create_empty_network : Exn + Net.

Definition create_empty_network : Session -> ToolResult * Session :=
  tool
    (net <- of_sum pp_create_empty_network ;;
     r <- alloc net ;;
     set_current_net r ;;
     cur <- current_net_object ;;
     ret {| status := success;
            message := "Empty network created successfully";
            payload := NetworkInfoPayload (network_info_of cur) |})
    (fun e => error_result ("Failed to create empty network: " +:+ exn_str e)).

(** The branch on the extension that [load_network] and
    [load_and_run_power_flow] both start with. *)
Definition load_by_extension (file_path : string) : M Session unit :=
  if endswith file_path ".json" then
    (r <- pp_from_json file_path ;; set_current_net r)
  else if endswith file_path ".p" then
    (r <- pp_from_pickle file_path ;; set_current_net r)
  else
    raise (mkExn ValueError "Unsupported file format. Use .json or .p files.").

(** [load_network] *)
Definition load_network (file_path : string) : Session -> ToolResult * Session :=
  tool
    (load_by_extension file_path ;;
     cur <- current_net_object ;;
     ret {| status := success;
            message := "Network loaded successfully from " +:+ file_path;
            payload := NetworkInfoPayload (network_info_of cur) |})
    (fun e => match exn_class e with
              | FileNotFoundError =>
                  error_result ("File not found: " +:+ file_path)
              | ValueError => error_result (exn_str e)
              | _ => error_result ("Failed to load network: " +:+ exn_str e)
              end).

(** [run_power_flow] *)
Definition run_power_flow (params : PFParams) : Session -> ToolResult * Session :=
  tool
    (r <- _get_network ;;
     pp_runpp r (Some params) ;;
     net <- deref r ;;
     ret {| status := success;
            message := if converged net
                       then "Power flow calculation completed successfully"
                       else "Power flow did not converge";
            payload := PowerFlowPayload (power_flow_results_of net) |})
    (fun e => match exn_class e with
              | RuntimeError => error_result (exn_str e)
              | _ => error_result ("Power flow calculation failed: " +:+ exn_str e)
              end).

(** The two filters of the contingency loop: buses with [vm_pu] outside
    [0.95, 1.05] and lines with [loading_percent] above [100]. *)
Definition violations_of (net : Net) : Violations :=
  {| voltage_violations :=
       List.map rb_label
         (List.filter (fun row => PrimFloat.ltb (vm_pu row) 0.95
                                  || PrimFloat.ltb 1.05 (vm_pu row))
                      (res_bus net));
     loading_violations :=
       List.map rl_label
         (List.filter (fun row => PrimFloat.ltb 100 (loading_percent row))
                      (res_line net)) |}.

(** [f"{element_type}_{idx}"] *)
Definition contingency_name (element_type : string) (idx : Z) : string :=
  element_type +:+ "_" +:+ pretty idx.

(** [KeyError(key)]: its [str] is the [repr] of the key, so the key in
    quotes. *)
Definition key_error (key : string) : Exn :=
  mkExn KeyError ("'" +:+ key +:+ "'").

(** [net[element_type].index] on the object behind [r].  A name the net
    has nothing under raises [KeyError].  [Net] holds the tables of a net
    only: its other entries (the name, the frequency, ...) have no index
    and would raise [AttributeError] here, which the callers' handlers
    treat like [KeyError]. *)
Definition table_index (r : ref) (element_type : string) : M Session (list Z) :=
  net <- deref r ;;
  match get_table net element_type with
  | Some t => ret (index t)
  | None => raise (key_error element_type)
  end.

(** [net[element_type].at[idx, 'in_service'] = False] on the object behind [r]. *)
Definition take_out_of_service (r : ref) (element_type : string) (idx : Z) : M Session unit :=
  net <- deref r ;;
  match get_table net element_type with
  | Some t => store r (set_table net element_type (set_out_of_service t idx))
  | None => raise (key_error element_type)
  end.

(** The body of the inner loop for one [idx]: copy, switch off, and the
    inner [try]. *)
Definition contingency_case (orig_net : ref) (element_type : string) (idx : Z)
  : M Session ContingencyOutcome :=
  contingency_net <- deepcopy orig_net ;;
  take_out_of_service contingency_net element_type idx ;;
  try_except
    (pp_runpp contingency_net None ;;
     cn <- deref contingency_net ;;
     ret {| contingency := contingency_name element_type idx;
            c_converged := converged cn;
            violations := Some (violations_of cn);
            c_error := None |})
    (fun e =>
       ret {| contingency := contingency_name element_type idx;
              c_converged := false;
              violations := None;
              c_error := Some (exn_str e) |}).

(** [for idx in net[element_type].index: ...], appending to [results]. *)
Fixpoint sweep_indices (orig_net : ref) (element_type : string) (idxs : list Z)
    (results : list ContingencyOutcome) : M Session (list ContingencyOutcome) :=
  match idxs with
  | [] => ret results
  | idx :: rest =>
      o <- contingency_case orig_net element_type idx ;;
      sweep_indices orig_net element_type rest (results ++ [o])
  end.

(** [for element_type in elements: ...] *)
Fixpoint sweep_elements (net orig_net : ref) (elements : list string)
    (results : list ContingencyOutcome) : M Session (list ContingencyOutcome) :=
  match elements with
  | [] => ret results
  | element_type :: rest =>
      idxs <- table_index net element_type ;;
      results' <- sweep_indices orig_net element_type idxs results ;;
      sweep_elements net orig_net rest results'
  end.

(** [run_contingency_analysis]; [contingency_type] is accepted and not
    read. *)
Definition run_contingency_analysis (contingency_type : string)
    (elements : option (list string)) : Session -> ToolResult * Session :=
  tool
    (net <- _get_network ;;
     orig_net <- deepcopy net ;;
     let elements := match elements with
                     | None => ["line"; "trafo"]
                     | Some l => l
                     end in
     results <- sweep_elements net orig_net elements [] ;;
     ret {| status := success;
            message := "Contingency analysis completed";
            payload := ContingencyPayload results |})
    (fun e => match exn_class e with
              | RuntimeError => error_result (exn_str e)
              | _ => error_result ("Contingency analysis failed: " +:+ exn_str e)
              end).

(** [get_network_info] *)
Definition get_network_info : Session -> ToolResult * Session :=
  tool
    (r <- _get_network ;;
     net <- deref r ;;
     ret {| status := success;
            message := "Network information retrieved successfully";
            payload := InfoPayload
              {| d_buses := length (bus net);
                 d_lines := length (line net);
                 d_trafos := length (trafo net);
                 d_generators := length (gen net);
                 d_loads := length (load net);
                 d_switches := length (switch net);
                 bus_data := bus net;
                 line_data := line net;
                 trafo_data := trafo net |} |})
    (fun e => match exn_class e with
              | RuntimeError => error_result (exn_str e)
              | _ => error_result ("Failed to get network information: " +:+ exn_str e)
              end).

(** [load_and_run_power_flow] *)
Definition load_and_run_power_flow (file_path : string) (params : PFParams)
  : Session -> ToolResult * Session :=
  tool
    (load_by_extension file_path ;;
     cur <- current_net_object ;;
     let network_info := network_info_of cur in
     r <- _current_net_ref ;;
     pp_runpp r (Some params) ;;
     net <- deref r ;;
     ret {| status := success;
            message :=
              if converged net
              then "Network loaded from " +:+ file_path
                   +:+ " and power flow completed successfully"
              else "Network loaded from " +:+ file_path
                   +:+ " but power flow did not converge";
            payload := LoadAndRunPayload network_info
                         (power_flow_results_of net) |})
    (fun e => match exn_class e with
              | FileNotFoundError =>
                  error_result ("File not found: " +:+ file_path)
              | ValueError => error_result (exn_str e)
              | _ => error_result
                       ("Failed to load network and run power flow: " +:+ exn_str e)
              end).

End Tools.

End Panda.

(** ** The orchestration node: [agent/graph.py] *)

Module Graph.

(** *** Data *)

Section Node.

(** The argument mapping of a tool call, and the rest of the world that
    model and tools can see and change (the tool server's session among
    it). *)
Variable Args : Type.
Variable World : Type.

(** An entry of [response.tool_calls]: a dictionary with ["name"] and,
    when present, ["id"] and ["args"]. *)
Record ToolCall : Type := mkCall {
  tc_name : string;
  tc_id : option string;
  tc_args : option Args
}.

(** A tool as the MCP client lists it. *)
Record Tool : Type := mkTool { name : string; description : string }.

Inductive Message : Type :=
| SystemMessage (content : string)
| HumanMessage (content : string)
| AIMessage (content : string) (tool_calls : list ToolCall)
| ToolMessage (content : string) (tool_call_id : string).

(** What [llm.invoke] returns: an [AIMessage]. *)
Record Response : Type := mkResponse {
  content : string;
  tool_calls : list ToolCall
}.

(** The fields of [Configuration] that [chat_node] reads. *)
Record Configuration : Type := mkConfiguration {
  chat_model : string;
  temperature : float;
  enable_mcp : bool
}.

(** An entry of [tool_results]. *)
Record ToolResultEntry : Type := mkEntry {
  tool_call_id : string;
  entry_name : string;
  entry_content : string
}.

(** Calls that leave the node: a model invocation with the tools bound to
    it and the messages submitted, a tool invocation with its arguments. *)
Inductive Event : Type :=
| EvModel (bound : list Tool) (messages : list Message)
| EvTool (tool : Tool) (args : Args).

Record NodeState : Type := mkNodeState {
  world : World;
  events : list Event
}.

(** The collaborators.  [model] is [ChatOpenAI(...).invoke] (after
    [bind_tools] when tools are bound), [transport] is [tool.ainvoke] with
    the result already passed through [str], [discover] is
    [MultiServerMCPClient.get_tools]; [empty_args] is [{}].
    [chat_instructions] and [get_current_date] come from [agent/prompts.py],
    which is not among the sources. *)
Variable model : list Tool -> list Message -> World -> (Exn + Response) * World.
Variable transport : Tool -> Args -> World -> (Exn + string) * World.
Variable discover : Exn + list Tool.
Variable empty_args : Args.
Variable chat_instructions : string -> string.
Variable get_current_date : string.

Definition emit (ev : Event) : M NodeState unit :=
  fun s => (Ok tt, {| world := world s; events := events s ++ [ev] |}).

(** Running a collaborator on the world. *)
Definition call {A} (f : World -> (Exn + A) * World) : M NodeState A :=
  fun s => let out := f (world s) in
           let s' := {| world := snd out; events := events s |} in
           match fst out with
           | inl e => (Raise e, s')
           | inr a => (Ok a, s')
           end.

(** [llm.invoke(messages)] *)
Definition llm_invoke (bound : list Tool) (messages : list Message)
  : M NodeState Response :=
  emit (EvModel bound messages) ;;
  call (model bound messages).

(** [get_mcp_tools]: the empty list when MCP is off or discovery fails. *)
Definition get_mcp_tools (configurable : Configuration) : list Tool :=
  if negb (enable_mcp configurable) then []
  else match discover with
       | inr tools => tools
       | inl _ => []
       end.

(** [execute_tool_async]: the tool's result, or its exception raised
    again; the arguments are [tool_call.get("args", {})]. *)
Definition execute_tool_async (tool : Tool) (tool_call : ToolCall) : M NodeState string :=
  let args := match tc_args tool_call with
              | Some a => a
              | None => empty_args
              end in
  try_except
    (emit (EvTool tool args) ;; call (transport tool args))
    (fun e => raise e).

(** [tool_call.get("id", f"call_{tool_call['name']}")] *)
Definition call_id (tool_call : ToolCall) : string :=
  match tc_id tool_call with
  | Some i => i
  | None => "call_" +:+ tc_name tool_call
  end.

(** The inner [for tool in tools] loop: the first tool of that name. *)
Definition matching_tool (tools : list Tool) (tool_call : ToolCall) : option Tool :=
  List.find (fun tool => String.eqb (name tool) (tc_name tool_call)) tools.

Definition not_found_msg (tool_call : ToolCall) : string :=
  "Tool '" +:+ tc_name tool_call +:+ "' not found".

Definition failed_msg (tool_call : ToolCall) (e : Exn) : string :=
  "Tool '" +:+ tc_name tool_call +:+ "' failed: " +:+ exn_str e.

(** One round of the loop of [execute_all_tools]: the [try] and its
    [except Exception], each branch making the entry it appends. *)
Definition execute_one (tools : list Tool) (tool_call : ToolCall)
  : M NodeState ToolResultEntry :=
  try_except
    (match matching_tool tools tool_call with
     | Some tool =>
         result <- execute_tool_async tool tool_call ;;
         ret {| tool_call_id := call_id tool_call;
                entry_name := tc_name tool_call;
                entry_content := result |}
     | None =>
         ret {| tool_call_id := call_id tool_call;
                entry_name := tc_name tool_call;
                entry_content := not_found_msg tool_call |}
     end)
    (fun e =>
       ret {| tool_call_id := call_id tool_call;
              entry_name := tc_name tool_call;
              entry_content := failed_msg tool_call e |}).

(** [execute_all_tools] *)
Fixpoint execute_all_tools (tools : list Tool) (calls : list ToolCall)
    (tool_results : list ToolResultEntry) : M NodeState (list ToolResultEntry) :=
  match calls with
  | [] => ret tool_results
  | tool_call :: rest =>
      entry <- execute_one tools tool_call ;;
      execute_all_tools tools rest (tool_results ++ [entry])
  end.

Definition dq : string := String (ascii_of_nat 34) EmptyString.

(** The text [chat_node] adds to the system prompt when tools are bound. *)
Definition tool_guidance : string :=
  "

You have access to specialized tools for power system analysis via pandapower. When users ask about:
- Power flow analysis
- Network loading
- Electrical calculations  
- Pandapower operations
- Loading networks from files

Use the available tools to help them. For pandapower tasks, you can:
1. Load networks from files (like JSON files) using the load_network tool
2. Run power flow analysis using the run_power_flow tool
3. Perform contingency analysis using the run_contingency_analysis tool
4. Get network information using the get_network_info tool

CRITICAL: When a user asks you to " +:+ dq +:+ "solve the power flow" +:+ dq +:+ " or perform power analysis:
1. First use load_network tool to load the network file
2. Then immediately use run_power_flow tool to perform the analysis
3. Explain the results clearly

Don't just say you will do something - actually complete the full task by calling the necessary tools in sequence.".

Definition enhanced_prompt (tools : list Tool) : string :=
  match tools with
  | [] => chat_instructions get_current_date
  | _ :: _ => chat_instructions get_current_date +:+ tool_guidance
  end.

Definition tool_message (result : ToolResultEntry) : Message :=
  ToolMessage (entry_content result) (tool_call_id result).

(** The response as it is put back into the conversation. *)
Definition as_message (response : Response) : Message :=
  AIMessage (content response) (tool_calls response).

(** [chat_node]: [state_messages] is [state["messages"]], the result is
    the list under ["messages"] of the returned update. *)
Definition chat_node (state_messages : list Message) (configurable : Configuration)
  : M NodeState (list Message) :=
  let tools := if enable_mcp configurable
               then get_mcp_tools configurable else [] in
  let messages := SystemMessage (enhanced_prompt tools) :: state_messages in
  response <- llm_invoke tools messages ;;
  match tool_calls response with
  | _ :: _ =>
      tool_results <- execute_all_tools tools (tool_calls response) [] ;;
      let tool_messages := List.map tool_message tool_results in
      let follow_up_messages :=
        messages ++ [as_message response] ++ tool_messages in
      final_response <- llm_invoke tools follow_up_messages ;;
      ret [AIMessage (content final_response) []]
  | [] => ret [AIMessage (content response) []]
  end.

End Node.

Arguments mkCall {Args}.
Arguments tc_name {Args}.
Arguments tc_id {Args}.
Arguments tc_args {Args}.
Arguments SystemMessage {Args}.
Arguments HumanMessage {Args}.
Arguments AIMessage {Args}.
Arguments ToolMessage {Args}.
Arguments mkResponse {Args}.
Arguments content {Args}.
Arguments tool_calls {Args}.
Arguments EvModel {Args}.
Arguments EvTool {Args}.
Arguments mkNodeState {Args World}.
Arguments world {Args World}.
Arguments events {Args World}.
Arguments call_id {Args}.
Arguments matching_tool {Args}.
Arguments not_found_msg {Args}.
Arguments failed_msg {Args}.
Arguments tool_message {Args}.
Arguments as_message {Args}.

End Graph.

(** ** Python values in configuration dictionaries *)

(** The values the two files tell apart: [None], strings, and the rest
    (numbers, booleans, lists, dictionaries), which are only passed on. *)
Inductive PyValue : Type :=
| PyNone
| PyStr (s : string)
| PyBool (b : bool)
| PyFloat (x : float)
| PyObject (repr : string).

(** [str.upper] on ASCII text, which is what field names are. *)
Definition upper_ascii (c : ascii) : ascii :=
  let n := nat_of_ascii c in
  if (97 <=? n)%nat && (n <=? 122)%nat then ascii_of_nat (n - 32) else c.

Fixpoint upper (s : string) : string :=
  match s with
  | EmptyString => EmptyString
  | String c rest => String (upper_ascii c) (upper rest)
  end.

(** ** The configuration: [agent/configuration.py] *)

Module Config.

Section FromRunnableConfig.

(** What [cls] makes of the keyword arguments [values] is pydantic's
    business: the constructor is a parameter, and so is the type of what
    it builds. *)
Variable Built : Type.
Variable cls : list (string * PyValue) -> Exn + Built.

(** A [RunnableConfig] as far as it is read: the value under
    ["configurable"], if the key is there. *)
Record RunnableConfig : Type := mkRunnableConfig {
  rc_configurable : option (gmap string PyValue)
}.

(** [cls.model_fields.keys()], in declaration order. *)
Definition model_fields : list string :=
  ["chat_model"; "temperature"; "mcp_servers"; "enable_mcp"].

(** [config["configurable"] if config and "configurable" in config else {}] *)
Definition configurable_of (config : option RunnableConfig)
  : gmap string PyValue :=
  match config with
  | Some rc =>
      match rc_configurable rc with
      | Some d => d
      | None => ∅
      end
  | None => ∅
  end.

(** [dict.get(key)]: [None] when the key is missing. *)
Definition dict_get (d : gmap string PyValue) (key : string) : PyValue :=
  match d !! key with
  | Some v => v
  | None => PyNone
  end.

(** [os.environ.get(name.upper(), configurable.get(name))] *)
Definition raw_value (environ : gmap string string)
    (configurable : gmap string PyValue) (name : string) : PyValue :=
  match environ !! upper name with
  | Some v => PyStr v
  | None => dict_get configurable name
  end.

Definition is_none (v : PyValue) : bool :=
  match v with
  | PyNone => true
  | _ => false
  end.

(** The two comprehensions: [raw_values] over the fields, then [values]
    without the entries that are [None]. *)
Definition raw_values (environ : gmap string string)
    (configurable : gmap string PyValue) : list (string * PyValue) :=
  List.map (fun name => (name, raw_value environ configurable name))
           model_fields.

Definition values (environ : gmap string string)
    (configurable : gmap string PyValue) : list (string * PyValue) :=
  List.filter (fun kv => negb (is_none (snd kv)))
              (raw_values environ configurable).

(** [Configuration.from_runnable_config] *)
Definition from_runnable_config (environ : gmap string string)
    (config : option RunnableConfig) : Exn + Built :=
  cls (values environ (configurable_of config)).

End FromRunnableConfig.

(** Looking a keyword up among the arguments. *)
Fixpoint kwarg (args : list (string * PyValue)) (name : string) : option PyValue :=
  match args with
  | [] => None
  | (k, v) :: rest => if String.eqb k name then Some v else kwarg rest name
  end.

End Config.

(** ** The MCP client: [get_mcp_client] and [get_mcp_tools] of
    [agent/graph.py], with the module-level global [_mcp_client] *)

Module McpClient.

(** One entry of [mcp_servers]: a dictionary with ["command"], ["args"],
    ["transport"], ["cwd"], ["env"]. *)
Definition ServerConfig : Type := gmap string PyValue.

(** A [MultiServerMCPClient] is known by the [server_configs] it was made
    from, in the order they were put in. *)
Definition Client : Type := list (string * ServerConfig).

Section Client.

(** [str(Path(__file__).parent.parent)], the tools a client lists
    ([MultiServerMCPClient.get_tools]), and the type of a tool. *)
Variable current_dir : string.
Variable Tool : Type.
Variable get_tools : Client -> Exn + list Tool.

(** The loop body of [get_mcp_client]: copy the entry and fill in
    ["cwd"] when it is [None]; [config["cwd"]] needs the key. *)
Definition with_cwd (server_config : ServerConfig) : Exn + ServerConfig :=
  match server_config !! "cwd" with
  | None => inl (mkExn KeyError "'cwd'")
  | Some PyNone => inr (<["cwd" := PyStr current_dir]> server_config)
  | Some _ => inr server_config
  end.

(** [for server_name, server_config in configurable.mcp_servers.items()],
    with [mcp_servers] given as its items. *)
Fixpoint server_configs_of (mcp_servers : list (string * ServerConfig))
  : Exn + Client :=
  match mcp_servers with
  | [] => inr []
  | (server_name, server_config) :: rest =>
      match with_cwd server_config with
      | inl e => inl e
      | inr config =>
          match server_configs_of rest with
          | inl e => inl e
          | inr configs => inr ((server_name, config) :: configs)
          end
      end
  end.

(** [get_mcp_client]; the state is the global [_mcp_client]. *)
Definition get_mcp_client (enable_mcp : bool)
    (mcp_servers : list (string * ServerConfig))
  : M (option Client) (option Client) :=
  fun _mcp_client =>
    match _mcp_client with
    | None =>
        if enable_mcp then
          match server_configs_of mcp_servers with
          | inl e => (Raise e, None)
          | inr server_configs =>
              (Ok (Some server_configs), Some server_configs)
          end
        else (Ok None, None)
    | Some client => (Ok (Some client), Some client)
    end.

(** [get_mcp_tools]: every exception of the [try] ends in [[]]. *)
Definition get_mcp_tools (enable_mcp : bool)
    (mcp_servers : list (string * ServerConfig))
  : option Client -> list Tool * option Client :=
  fun _mcp_client =>
    if negb enable_mcp then ([], _mcp_client)
    else
      match
        try_except
          (mcp_client <- get_mcp_client enable_mcp mcp_servers ;;
           match mcp_client with
           | Some client => tools <- of_sum (get_tools client) ;; ret (Some tools)
           | None => ret None
           end)
          (fun _ => ret (Some []))
          _mcp_client
      with
      | (Ok (Some tools), g) => (tools, g)
      | (Ok None, g) => ([], g)
      | (Raise _, g) => ([], g)
      end.

End Client.

End McpClient.

(** ** A small world to run the definitions in

    A two-bus grid with two lines and a transformer, a file system with
    three network files, and a solver that converges on the intact grid,
    stops without converging when line 5 is out of service, and raises
    when transformer 2 is out of service or the network has no bus. *)

Module Demo.

Import Panda.

Definition grid : Net :=
  {| bus := [mkRow 0 true; mkRow 1 true];
     line := [mkRow 0 true; mkRow 5 true];
     trafo := [mkRow 2 true];
     gen := [mkRow 0 true]; load := [mkRow 0 true]; switch := [];
     other_tables := [("ext_grid", [mkRow 0 true])];
     res_bus := []; res_line := []; res_trafo := [];
     converged := false |}.

(** The grid with line 5 already switched off. *)
Definition weak_grid : Net :=
  set_table grid "line" (set_out_of_service (line grid) 5).

(** A network without buses. *)
Definition no_bus : Net :=
  {| bus := []; line := []; trafo := []; gen := []; load := []; switch := [];
     other_tables := [];
     res_bus := []; res_line := []; res_trafo := [];
     converged := false |}.

Definition from_json (file_path : string) : Exn + Net :=
  if String.eqb file_path "grid.json" then inr grid
  else if String.eqb file_path "weak.json" then inr weak_grid
  else if String.eqb file_path "no_bus.json" then inr no_bus
  else inl (mkExn FileNotFoundError "No such file or directory").

Definition from_pickle (file_path : string) : Exn + Net :=
  inl (mkExn OtherException "could not unpickle").

Definition all_in_service (t : Table) : bool :=
  List.forallb in_service t.

Definition with_results (net : Net) (rb : list ResBusRow)
    (rl rt : list ResBranchRow) (c : bool) : Net :=
  {| bus := bus net; line := line net; trafo := trafo net; gen := gen net;
     load := load net; switch := switch net;
     other_tables := other_tables net;
     res_bus := rb; res_line := rl; res_trafo := rt; converged := c |}.

Definition runpp (params : option PFParams) (net : Net) : Net * option Exn :=
  match bus net with
  | [] => (net, Some (mkExn OtherException "no buses"))
  | _ :: _ =>
      if negb (all_in_service (trafo net)) then
        (with_results net [] [] [] false,
         Some (mkExn OtherException "singular matrix"))
      else if negb (all_in_service (line net)) then
        (with_results net
           [mkResBus 0 1.02%float; mkResBus 1 0.91%float]
           [mkResBranch 0 134.5%float; mkResBranch 5 0%float]
           [mkResBranch 2 80%float] false, None)
      else
        (with_results net
           [mkResBus 0 1.02%float; mkResBus 1 0.99%float]
           [mkResBranch 0 61%float; mkResBranch 5 58.5%float]
           [mkResBranch 2 80%float] true, None)
  end.

(** The session after [load_network("grid.json")] in a fresh process. *)
Definition grid_session : Session :=
  {| heap := [grid]; _current_net := Some 0; log := [EvFromJson "grid.json"] |}.

Definition weak_session : Session :=
  {| heap := [weak_grid]; _current_net := Some 0; log := [EvFromJson "weak.json"] |}.

End Demo.

(** A model and a transport to run [chat_node] with.  The world is the
    tool server's session.  The model first asks for three tools (the
    second is not one the server offers, the third carries no id), and
    once it sees a tool message it answers in words while asking for one
    more tool. *)

Module DemoChat.

Import Graph.

Definition Args : Type := list (string * string).
Definition World : Type := Panda.Session.

Definition tools : list Tool :=
  [ mkTool "load_network" "Load a pandapower network from a file.";
    mkTool "run_power_flow" "Run power flow analysis on the current network." ].

Definition first_calls : list (ToolCall Args) :=
  [ mkCall "load_network" (Some "call_1") (Some [("file_path", "grid.json")]);
    mkCall "lookup_weather" (Some "call_2") (Some []);
    mkCall "run_power_flow" None None ].

Definition is_tool_message (m : Message Args) : bool :=
  match m with
  | ToolMessage _ _ => true
  | _ => false
  end.

Definition model (bound : list Tool) (messages : list (Message Args))
    (w : World) : (Exn + Response Args) * World :=
  if List.existsb is_tool_message messages then
    (inr (mkResponse "The power flow converged."
            [mkCall "run_contingency_analysis" (Some "call_4") None]), w)
  else
    match bound with
    | [] => (inr (mkResponse "I have no tools." []), w)
    | _ :: _ => (inr (mkResponse "" first_calls), w)
    end.

Definition file_path_of (args : Args) : string :=
  match args with
  | (_, v) :: _ => v
  | [] => ""
  end.

Definition transport (tool : Tool) (args : Args) (w : World)
  : (Exn + string) * World :=
  if String.eqb (name tool) "load_network" then
    let out := Panda.load_network Demo.from_json Demo.from_pickle
                 (file_path_of args) w in
    (inr (Panda.message (fst out)), snd out)
  else if String.eqb (name tool) "run_power_flow" then
    let out := Panda.run_power_flow Demo.runpp Panda.default_params w in
    (inr (Panda.message (fst out)), snd out)
  else (inl (mkExn OtherException "connection closed"), w).

Definition discover : Exn + list Tool := inr tools.

Definition chat_instructions (current_date : string) : string :=
  "You are a helpful assistant. Today is " +:+ current_date +:+ ".".

Definition configurable : Configuration :=
  {| chat_model := "gemini-2.0-flash"; temperature := 0.7%float;
     enable_mcp := true |}.

Definition without_mcp : Configuration :=
  {| chat_model := "gemini-2.0-flash"; temperature := 0.7%float;
     enable_mcp := false |}.

Definition start : NodeState Args World :=
  {| world := Panda.initial_session; events := [] |}.

Definition question : list (Message Args) :=
  [HumanMessage "could you use pandapower to solve the power flow of grid.json"].

Definition run (c : Configuration)
  : Res (list (Message Args)) * NodeState Args World :=
  chat_node Args World model transport discover [] chat_instructions
    "2025-01-01" question c start.

End DemoChat.

(** More of the demo world: a solver whose shared library is missing, an
    environment and a config for [from_runnable_config], server entries for
    the MCP client, a tool list with a tool whose transport fails, and a
    model that is down. *)

Module DemoMore.

Definition runpp_without_library (params : option Panda.PFParams)
    (net : Panda.Net) : Panda.Net * option Exn :=
  (net, Some (mkExn FileNotFoundError "libsolver.so: cannot open shared object file")).

Definition no_bus_session : Panda.Session :=
  {| Panda.heap := [Demo.no_bus]; Panda._current_net := Some 0;
     Panda.log := [Panda.EvFromJson "no_bus.json"] |}.

Definition environ : gmap string string :=
  <["TEMPERATURE" := "0.2"]> (<["HOME" := "/root"]> ∅).

Definition config : option Config.RunnableConfig :=
  Some (Config.mkRunnableConfig
          (Some (<["temperature" := PyFloat 0.9%float]>
                   (<["chat_model" := PyStr "gpt-4o-mini"]>
                      (<["enable_mcp" := PyNone]>
                         (<["thread_id" := PyStr "42"]> ∅)))))).

(** A constructor that keeps its keyword arguments. *)
Definition cls (args : list (string * PyValue))
  : Exn + list (string * PyValue) := inr args.

Definition pandapower_server : McpClient.ServerConfig :=
  <["command" := PyStr "python"]>
    (<["args" := PyObject "['src/mcp/panda_mcp.py']"]>
       (<["transport" := PyStr "stdio"]>
          (<["cwd" := PyNone]> (<["env" := PyNone]> ∅)))).

Definition remote_server : McpClient.ServerConfig :=
  <["transport" := PyStr "sse"]> (<["url" := PyStr "http://localhost:8000"]> ∅).

Definition mcp_servers : list (string * McpClient.ServerConfig) :=
  [("pandapower", pandapower_server)].

Definition broken_servers : list (string * McpClient.ServerConfig) :=
  [("pandapower", pandapower_server); ("remote", remote_server)].

Definition client : McpClient.Client :=
  [("pandapower", <["cwd" := PyStr "/srv/backend/src"]> pandapower_server)].

Definition get_tools (c : McpClient.Client) : Exn + list Graph.Tool :=
  inr DemoChat.tools.

Definition get_tools_down (c : McpClient.Client) : Exn + list Graph.Tool :=
  inl (mkExn OtherException "connection refused").

(** The tools of [DemoChat] and one more, which the demo transport cannot
    reach. *)
Definition discover : Exn + list Graph.Tool :=
  inr (DemoChat.tools
       ++ [Graph.mkTool "lookup_weather" "Look up the weather."]).

Definition model_down (bound : list Graph.Tool)
    (messages : list (Graph.Message DemoChat.Args)) (w : DemoChat.World)
  : (Exn + Graph.Response DemoChat.Args) * DemoChat.World :=
  (inl (mkExn OtherException "rate limit exceeded"), w).

End DemoMore.

(** ** What [pp.runpp] does when the iteration does not converge

    This is pandapower's behaviour, not part of the sources: [runpp] sets
    [net.converged] to [False] when it starts and to [True] when the
    iteration has succeeded; when the iteration has not succeeded it raises
    [LoadflowNotConverged], a subclass of [Exception] that is none of
    [RuntimeError], [ValueError], [FileNotFoundError], with the text
    [Power Flow <algorithm> did not converge after <n> iterations!]. *)

Module Pandapower.

Definition LoadflowNotConverged (msg : string) : Exn :=
  mkExn OtherException msg.

(** A [runpp] returns normally only with [net.converged] true. *)
Definition returns_only_when_converged
    (runpp : option Panda.PFParams -> Panda.Net -> Panda.Net * option Exn)
  : Prop :=
  forall params net,
    snd (runpp params net) = None ->
    Panda.converged (fst (runpp params net)) = true.

End Pandapower.

(** The demo solver made to behave like pandapower: where [Demo.runpp]
    hands back a network that has not converged, this one raises. *)

Module DemoLibrary.

Definition runpp (params : option Panda.PFParams) (net : Panda.Net)
  : Panda.Net * option Exn :=
  match Demo.runpp params net with
  | (net', None) =>
      if Panda.converged net' then (net', None)
      else (net',
            Some (Pandapower.LoadflowNotConverged
                    "Power Flow nr did not converge after 10 iterations!"))
  | (net', Some e) => (net', Some e)
  end.

End DemoLibrary.

(** ** Properties of the tool server *)

Section PandaProperties.

Import Panda.

Variable from_json : string -> Exn + Net.
Variable from_pickle : string -> Exn + Net.
Variable runpp : option PFParams -> Net -> Net * option Exn.

Local Abbreviation load_network := (Panda.load_network from_json from_pickle).
Local Abbreviation run_power_flow := (Panda.run_power_flow runpp).
Local Abbreviation run_contingency_analysis := (Panda.run_contingency_analysis runpp).
Local Abbreviation load_and_run_power_flow :=
  (Panda.load_and_run_power_flow from_json from_pickle runpp).

(** A network is loaded when the global holds a reference to an object. *)
Definition loaded (s : Session) (r : ref) (net : Net) : Prop :=
  _current_net s = Some r /\ heap s !! r = Some net.

Definition no_network_msg : string :=
  "No pandapower network is currently loaded. Please create or load a network first.".

Definition unsupported_msg : string :=
  "Unsupported file format. Use .json or .p files.".

(** What reading [file_path] gives: nothing is read for an extension that
    is neither [.json] nor [.p]. *)
Definition deserialize (file_path : string) : option (Exn + Net) :=
  if endswith file_path ".json" then Some (from_json file_path)
  else if endswith file_path ".p" then Some (from_pickle file_path)
  else None.

(** The read that [deserialize] stands for, as it shows in the log. *)
Definition read_event (file_path : string) : list Event :=
  if endswith file_path ".json" then [EvFromJson file_path]
  else if endswith file_path ".p" then [EvFromPickle file_path]
  else [].

(** *** Without a network *)

(** C8: with no network loaded, [run_power_flow],
    [run_contingency_analysis] and [get_network_info] each return the
    error-status result that carries the no-network message of
    [_get_network], and leave the session as it was: still without a
    network, nothing allocated, nothing called. *)
Theorem no_network_is_an_error_result (s : Session) (params : PFParams)
    (contingency_type : string) (elements : option (list string)) :
  _current_net s = None ->
  run_power_flow params s = (error_result no_network_msg, s)
  /\ run_contingency_analysis contingency_type elements s
     = (error_result no_network_msg, s)
  /\ get_network_info s = (error_result no_network_msg, s).
Proof.
  intros Hnone.
  unfold Panda.run_power_flow, Panda.run_contingency_analysis,
    get_network_info, tool, bind, _get_network.
  rewrite Hnone. cbn. repeat split.
Qed.

(** *** Loading *)

Lemma load_by_extension_run (file_path : string) (s : Session) :
  load_by_extension from_json from_pickle file_path s =
  match deserialize file_path with
  | None => (Raise (mkExn ValueError unsupported_msg), s)
  | Some (inl e) =>
      (Raise e, {| heap := heap s; _current_net := _current_net s;
                   log := log s ++ read_event file_path |})
  | Some (inr net) =>
      (Ok tt, {| heap := heap s ++ [net];
                 _current_net := Some (length (heap s));
                 log := log s ++ read_event file_path |})
  end.
Proof.
  unfold load_by_extension, deserialize, read_event.
  destruct (endswith file_path ".json").
  - unfold pp_from_json, bind, emit, of_sum. cbn.
    destruct (from_json file_path); reflexivity.
  - destruct (endswith file_path ".p").
    + unfold pp_from_pickle, bind, emit, of_sum. cbn.
      destruct (from_pickle file_path); reflexivity.
    + reflexivity.
Qed.

Lemma lookup_fresh (h : list Net) (net : Net) :
  (h ++ [net]) !! length h = Some net.
Proof.
  rewrite lookup_app_r by lia. now rewrite Nat.sub_diag.
Qed.

(** The handler of [load_network], by exception class. *)
Definition load_error (file_path : string) (e : Exn) : ToolResult :=
  match exn_class e with
  | FileNotFoundError => error_result ("File not found: " +:+ file_path)
  | ValueError => error_result (exn_str e)
  | _ => error_result ("Failed to load network: " +:+ exn_str e)
  end.

Lemma load_error_status (file_path : string) (e : Exn) :
  status (load_error file_path e) = error.
Proof. unfold load_error. destruct (exn_class e); reflexivity. Qed.

Lemma load_network_run (file_path : string) (s : Session) :
  load_network file_path s =
  match deserialize file_path with
  | None => (error_result unsupported_msg, s)
  | Some (inl e) =>
      (load_error file_path e,
       {| heap := heap s; _current_net := _current_net s;
          log := log s ++ read_event file_path |})
  | Some (inr net) =>
      ({| status := success;
          message := "Network loaded successfully from " +:+ file_path;
          payload := NetworkInfoPayload (network_info_of net) |},
       {| heap := heap s ++ [net];
          _current_net := Some (length (heap s));
          log := log s ++ read_event file_path |})
  end.
Proof.
  unfold Panda.load_network, tool, bind.
  rewrite load_by_extension_run.
  destruct (deserialize file_path) as [[e | net] | ]; try reflexivity.
  unfold current_net_object, deref. cbn.
  rewrite lookup_fresh. reflexivity.
Qed.

(** C2: a path that ends in neither [.json] nor [.p] gets the
    error-status result with the unsupported-format message, and the
    session after the call is the session before it: the same current
    network, the same objects, and no read in the log. *)
Theorem unsupported_extension_rejected (file_path : string) (s : Session) :
  endswith file_path ".json" = false ->
  endswith file_path ".p" = false ->
  load_network file_path s = (error_result unsupported_msg, s)
  /\ status (fst (load_network file_path s)) = error.
Proof.
  intros Hjson Hp. rewrite load_network_run.
  unfold deserialize. rewrite Hjson, Hp. split; reflexivity.
Qed.

(** C9: a [load_network] call that returns an error-status result leaves
    the current network and every object as they were; each of the three
    ways to fail (an extension that is not supported, a missing file or any
    other exception of the reader) does return an error-status result; and
    when the call changed the global or the objects, the reader had
    returned a network, which is what the global then refers to. *)
Theorem failed_load_keeps_network (file_path : string) (s : Session) :
  (status (fst (load_network file_path s)) = error ->
     _current_net (snd (load_network file_path s)) = _current_net s
     /\ heap (snd (load_network file_path s)) = heap s)
  /\ (deserialize file_path = None
      \/ (exists e, deserialize file_path = Some (inl e)) ->
      status (fst (load_network file_path s)) = error)
  /\ (_current_net (snd (load_network file_path s)) <> _current_net s
      \/ heap (snd (load_network file_path s)) <> heap s ->
      exists net, deserialize file_path = Some (inr net)
                  /\ loaded (snd (load_network file_path s))
                            (length (heap s)) net).
Proof.
  rewrite load_network_run.
  destruct (deserialize file_path) as [[e | net] | ]; cbn.
  - split; [auto | split].
    + intros _. apply load_error_status.
    + intros [H | H]; contradiction.
  - split; [discriminate | split].
    + intros [H | [e H]]; discriminate.
    + intros _. exists net. split; [reflexivity | ].
      split; cbn; [reflexivity | apply lookup_fresh].
  - split; [auto | split].
    + reflexivity.
    + intros [H | H]; contradiction.
Qed.

(** *** Solving *)

Lemma pp_runpp_run (r : ref) (params : option PFParams) (s : Session) (net : Net) :
  heap s !! r = Some net ->
  pp_runpp runpp r params s =
  (match snd (runpp params net) with
   | Some e => Raise e
   | None => Ok tt
   end,
   {| heap := <[r := fst (runpp params net)]> (heap s);
      _current_net := _current_net s;
      log := log s ++ [EvRunpp r params] |}).
Proof.
  intros Hr. unfold pp_runpp, bind, deref, emit, store. rewrite Hr. cbn.
  destruct (snd (runpp params net)); reflexivity.
Qed.

(** The handler of [run_power_flow], by exception class. *)
Definition solve_error (e : Exn) : ToolResult :=
  match exn_class e with
  | RuntimeError => error_result (exn_str e)
  | _ => error_result ("Power flow calculation failed: " +:+ exn_str e)
  end.

Lemma solve_error_status (e : Exn) : status (solve_error e) = error.
Proof. unfold solve_error. destruct (exn_class e); reflexivity. Qed.

Definition solve_success (net : Net) : ToolResult :=
  {| status := success;
     message := if converged net
                then "Power flow calculation completed successfully"
                else "Power flow did not converge";
     payload := PowerFlowPayload (power_flow_results_of net) |}.

Lemma run_power_flow_run (params : PFParams) (s : Session) (r : ref) (net : Net) :
  loaded s r net ->
  run_power_flow params s =
  (match snd (runpp (Some params) net) with
   | Some e => solve_error e
   | None => solve_success (fst (runpp (Some params) net))
   end,
   {| heap := <[r := fst (runpp (Some params) net)]> (heap s);
      _current_net := _current_net s;
      log := log s ++ [EvRunpp r (Some params)] |}).
Proof.
  intros [Hcur Hr].
  unfold Panda.run_power_flow, tool, bind, _get_network. rewrite Hcur.
  rewrite (pp_runpp_run _ _ _ _ Hr).
  destruct (snd (runpp (Some params) net)) as [e | ];
    [now rewrite Hcur | ].
  unfold deref. cbn.
  rewrite list_lookup_insert_eq by (eapply lookup_lt_Some; eassumption).
  now rewrite Hcur.
Qed.

(** The branch [run_power_flow] has for a solve that did not converge: if
    [pp.runpp] returned with [net.converged] false, the result would be a
    success-status result whose payload carries [converged = false], with
    the message that says so; and the result has error status exactly when
    [pp.runpp] raised. *)
Theorem nonconvergence_is_not_an_error (params : PFParams) (s : Session)
    (r : ref) (net : Net) :
  loaded s r net ->
  (snd (runpp (Some params) net) = None ->
   converged (fst (runpp (Some params) net)) = false ->
   fst (run_power_flow params s)
   = {| status := success;
        message := "Power flow did not converge";
        payload := PowerFlowPayload
                     (power_flow_results_of (fst (runpp (Some params) net))) |}
   /\ pf_converged (power_flow_results_of (fst (runpp (Some params) net)))
      = false)
  /\ (status (fst (run_power_flow params s)) = error
      <-> exists e, snd (runpp (Some params) net) = Some e).
Proof.
  intros Hloaded. rewrite (run_power_flow_run params s r net Hloaded). cbn.
  split.
  - intros Hok Hconv. rewrite Hok. unfold solve_success. rewrite Hconv.
    split; reflexivity.
  - destruct (snd (runpp (Some params) net)) as [e | ].
    + split; [eauto | intros _; apply solve_error_status].
    + split; [discriminate | intros [e He]; discriminate].
Qed.

(** *** What a call leaves alone

    [extends s0 s]: the global is what it was in [s0] and every object of
    [s0] is unchanged in [s]; objects may have been added. *)

Definition extends (s0 s : Session) : Prop :=
  _current_net s = _current_net s0
  /\ exists extra, heap s = heap s0 ++ extra.

Lemma extends_refl (s : Session) : extends s s.
Proof. split; [reflexivity | exists []; now rewrite app_nil_r]. Qed.

Lemma extends_trans (s0 s1 s2 : Session) :
  extends s0 s1 -> extends s1 s2 -> extends s0 s2.
Proof.
  intros [Hc1 [x1 Hx1]] [Hc2 [x2 Hx2]]. split; [congruence | ].
  exists (x1 ++ x2). rewrite Hx2, Hx1. now rewrite app_assoc.
Qed.

Lemma extends_lookup (s0 s : Session) (r : ref) (net : Net) :
  extends s0 s -> heap s0 !! r = Some net -> heap s !! r = Some net.
Proof.
  intros [_ [extra Hx]] Hr. rewrite Hx. now apply lookup_app_l_Some.
Qed.

Lemma extends_loaded (s0 s : Session) (r : ref) (net : Net) :
  extends s0 s -> loaded s0 r net -> loaded s r net.
Proof.
  intros Hext [Hcur Hr]. split.
  - destruct Hext as [Hc _]. congruence.
  - eapply extends_lookup; eassumption.
Qed.

Section Frame.

Variable s0 : Session.

(** [m] keeps [s0] whatever state extending [s0] it starts in, and a
    value it returns satisfies [Q]. *)
Definition keeps {A} (m : M Session A) (Q : A -> Prop) : Prop :=
  forall s, extends s0 s ->
            extends s0 (snd (m s))
            /\ forall a, fst (m s) = Ok a -> Q a.

Definition fresh (r : ref) : Prop := length (heap s0) <= r.

Lemma keeps_ret {A} (a : A) (Q : A -> Prop) : Q a -> keeps (ret a) Q.
Proof. intros Hq s Hs. split; [exact Hs | ]. cbn. congruence. Qed.

Lemma keeps_raise {A} (e : Exn) (Q : A -> Prop) : keeps (raise e) Q.
Proof. intros s Hs. split; [exact Hs | ]. cbn. discriminate. Qed.

Lemma keeps_bind {A B} (m : M Session A) (k : A -> M Session B)
    (Q : A -> Prop) (R : B -> Prop) :
  keeps m Q -> (forall a, Q a -> keeps (k a) R) -> keeps (bind m k) R.
Proof.
  intros Hm Hk s Hs. unfold bind.
  destruct (Hm s Hs) as [Hext Hq].
  destruct (m s) as [[a | e] s1]; cbn in *.
  - apply (Hk a (Hq a eq_refl) s1 Hext).
  - split; [exact Hext | discriminate].
Qed.

Lemma keeps_try {A} (body : M Session A) (handler : Exn -> M Session A)
    (Q : A -> Prop) :
  keeps body Q -> (forall e, keeps (handler e) Q) ->
  keeps (try_except body handler) Q.
Proof.
  intros Hb Hh s Hs. unfold try_except.
  destruct (Hb s Hs) as [Hext Hq].
  destruct (body s) as [[a | e] s1]; cbn in *.
  - split; [exact Hext | exact Hq].
  - apply (Hh e s1 Hext).
Qed.

Lemma keeps_weaken {A} (m : M Session A) (Q R : A -> Prop) :
  keeps m Q -> (forall a, Q a -> R a) -> keeps m R.
Proof.
  intros Hm Hqr s Hs. destruct (Hm s Hs) as [Hext Hq]. split; auto.
Qed.

Lemma keeps_deref (r : ref) : keeps (deref r) (fun _ => True).
Proof.
  intros s Hs. unfold deref. destruct (heap s !! r); cbn; auto.
Qed.

Lemma keeps_emit (ev : Event) : keeps (emit ev) (fun _ => True).
Proof.
  intros s [Hc Hx]. unfold emit. cbn. repeat split; auto.
Qed.

Lemma keeps_alloc (net : Net) : keeps (alloc net) fresh.
Proof.
  intros s [Hc [extra Hx]]. unfold alloc, fresh. cbn. split.
  - split; [exact Hc | ]. exists (extra ++ [net]).
    cbn. rewrite Hx. now rewrite app_assoc.
  - intros a Ha. injection Ha as <-. rewrite Hx, length_app. lia.
Qed.

Lemma keeps_store (r : ref) (net : Net) :
  fresh r -> keeps (store r net) (fun _ => True).
Proof.
  intros Hr s [Hc [extra Hx]]. unfold store. cbn. split; [ | auto].
  split; [exact Hc | ]. cbn.
  exists (<[r - length (heap s0) := net]> extra).
  rewrite Hx. now apply insert_app_r_alt.
Qed.

Lemma keeps_deepcopy (r : ref) : keeps (deepcopy r) fresh.
Proof.
  unfold deepcopy. eapply keeps_bind; [apply keeps_deref | ].
  intros net _. apply keeps_alloc.
Qed.

Lemma keeps_pp_runpp (r : ref) (params : option PFParams) :
  fresh r -> keeps (pp_runpp runpp r params) (fun _ => True).
Proof.
  intros Hr. unfold pp_runpp.
  eapply keeps_bind; [apply keeps_deref | ]. intros net _.
  eapply keeps_bind; [apply keeps_emit | ]. intros _ _.
  eapply keeps_bind; [apply (keeps_store _ _ Hr) | ]. intros _ _.
  destruct (snd (runpp params net)); [apply keeps_raise | now apply keeps_ret].
Qed.

Lemma keeps_take_out_of_service (r : ref) (element_type : string) (idx : Z) :
  fresh r -> keeps (take_out_of_service r element_type idx) (fun _ => True).
Proof.
  intros Hr. unfold take_out_of_service.
  eapply keeps_bind; [apply keeps_deref | ]. intros net _.
  destruct (get_table net element_type);
    [now apply keeps_store | apply keeps_raise].
Qed.

Lemma keeps_contingency_case (orig_net : ref) (element_type : string) (idx : Z) :
  keeps (contingency_case runpp orig_net element_type idx) (fun _ => True).
Proof.
  unfold contingency_case.
  eapply keeps_bind; [apply keeps_deepcopy | ]. intros cn Hcn.
  eapply keeps_bind; [now apply keeps_take_out_of_service | ]. intros _ _.
  apply keeps_try.
  - eapply keeps_bind; [now apply keeps_pp_runpp | ]. intros _ _.
    eapply keeps_bind; [apply keeps_deref | ]. intros net _.
    now apply keeps_ret.
  - intros e. now apply keeps_ret.
Qed.

Lemma keeps_sweep_indices (orig_net : ref) (element_type : string)
    (idxs : list Z) (results : list ContingencyOutcome) :
  keeps (sweep_indices runpp orig_net element_type idxs results) (fun _ => True).
Proof.
  revert results. induction idxs as [ | idx rest IH]; intros results; cbn.
  - now apply keeps_ret.
  - eapply keeps_bind; [apply keeps_contingency_case | ].
    intros o _. apply IH.
Qed.

Lemma keeps_table_index (r : ref) (element_type : string) :
  keeps (table_index r element_type) (fun _ => True).
Proof.
  unfold table_index.
  eapply keeps_bind; [apply keeps_deref | ]. intros net _.
  destruct (get_table net element_type); [now apply keeps_ret | apply keeps_raise].
Qed.

Lemma keeps_sweep_elements (net orig_net : ref) (elements : list string)
    (results : list ContingencyOutcome) :
  keeps (sweep_elements runpp net orig_net elements results) (fun _ => True).
Proof.
  revert results. induction elements as [ | et rest IH]; intros results; cbn.
  - now apply keeps_ret.
  - eapply keeps_bind; [apply keeps_table_index | ]. intros idxs _.
    eapply keeps_bind; [apply keeps_sweep_indices | ]. intros results' _.
    apply IH.
Qed.

Lemma keeps__get_network : keeps _get_network (fun _ => True).
Proof.
  intros s Hs. unfold _get_network. destruct (_current_net s); cbn; auto.
Qed.

End Frame.

Lemma tool_state (body : M Session ToolResult) (handler : Exn -> ToolResult)
    (s : Session) :
  snd (tool body handler s) = snd (body s).
Proof. unfold tool. destruct (body s) as [[a | e] s1]; reflexivity. Qed.

Lemma tool_keeps (body : M Session ToolResult) (handler : Exn -> ToolResult)
    (s : Session) :
  keeps s body (fun _ => True) -> extends s (snd (tool body handler s)).
Proof.
  intros Hk. rewrite tool_state. apply (Hk s (extends_refl s)).
Qed.

(** C10: whatever [run_contingency_analysis] returns, the session after
    it has the same current network and every object that existed before
    the call unchanged: switching elements off and re-solving only touch
    copies made during the call.  In particular a loaded network is still
    loaded with the same contents. *)
Theorem contingency_analysis_keeps_network (s : Session)
    (contingency_type : string) (elements : option (list string)) :
  extends s (snd (run_contingency_analysis contingency_type elements s))
  /\ forall r net,
       loaded s r net ->
       loaded (snd (run_contingency_analysis contingency_type elements s)) r net.
Proof.
  assert (Hext : extends s
            (snd (run_contingency_analysis contingency_type elements s))).
  { unfold Panda.run_contingency_analysis. apply tool_keeps. cbv zeta.
    eapply keeps_bind; [apply keeps__get_network | ]. intros net _.
    eapply keeps_bind; [apply keeps_deepcopy | ]. intros orig_net _.
    eapply keeps_bind; [apply keeps_sweep_elements | ]. intros results _.
    now apply keeps_ret. }
  split; [exact Hext | ].
  intros r net. now apply extends_loaded.
Qed.

(** *** The contingency sweep *)

(** The element types a call sweeps: the argument, or lines and
    transformers. *)
Definition requested (elements : option (list string)) : list string :=
  match elements with
  | None => ["line"; "trafo"]
  | Some l => l
  end.

(** The elements of the requested types, in sweep order: for each type in
    turn, the index of its table. *)
Definition contingency_cases (net : Net) (element_types : list string)
  : list (string * Z) :=
  flat_map (fun element_type =>
              match get_table net element_type with
              | Some t => List.map (pair element_type) (index t)
              | None => []
              end) element_types.

(** The network with one element out of service. *)
Definition without_element (net : Net) (c : string * Z) : Net :=
  match get_table net (fst c) with
  | Some t => set_table net (fst c) (set_out_of_service t (snd c))
  | None => net
  end.

Definition solved_outcome (c : string * Z) (net : Net) : ContingencyOutcome :=
  {| contingency := contingency_name (fst c) (snd c);
     c_converged := converged net;
     violations := Some (violations_of net);
     c_error := None |}.

Definition failed_outcome (c : string * Z) (e : Exn) : ContingencyOutcome :=
  {| contingency := contingency_name (fst c) (snd c);
     c_converged := false;
     violations := None;
     c_error := Some (exn_str e) |}.

(** What re-solving without the element gives. *)
Definition outcome_of (net : Net) (c : string * Z) : ContingencyOutcome :=
  match snd (runpp None (without_element net c)) with
  | Some e => failed_outcome c e
  | None => solved_outcome c (fst (runpp None (without_element net c)))
  end.

(** The default request, lines and transformers, names tables of every
    network. *)
Lemma default_request_valid (net : Net) :
  Forall (fun element_type => is_Some (get_table net element_type))
         (requested None).
Proof. repeat constructor; eexists; reflexivity. Qed.

Lemma insert_fresh (h : list Net) (old new : Net) :
  <[length h := new]> (h ++ [old]) = h ++ [new].
Proof.
  rewrite insert_app_r_alt by lia. now rewrite Nat.sub_diag.
Qed.

Lemma contingency_case_run (orig_net : ref) (element_type : string) (idx : Z)
    (s : Session) (net : Net) (t : Table) :
  heap s !! orig_net = Some net ->
  get_table net element_type = Some t ->
  contingency_case runpp orig_net element_type idx s =
  (Ok (outcome_of net (element_type, idx)),
   {| heap := heap s
              ++ [fst (runpp None (without_element net (element_type, idx)))];
      _current_net := _current_net s;
      log := log s ++ [EvRunpp (length (heap s)) None] |}).
Proof.
  intros Ho Ht.
  unfold contingency_case, deepcopy, take_out_of_service, bind, try_except,
    outcome_of, without_element.
  unfold deref at 1. rewrite Ho. cbn.
  unfold deref at 1. cbn. rewrite lookup_fresh, Ht. cbn.
  rewrite insert_fresh.
  erewrite pp_runpp_run by (cbn; apply lookup_fresh). cbn.
  rewrite insert_fresh.
  destruct (snd (runpp None (set_table net element_type
                               (set_out_of_service t idx)))) as [e | ].
  - reflexivity.
  - unfold deref. cbn. rewrite lookup_fresh. reflexivity.
Qed.

Lemma sweep_indices_run (orig_net : ref) (element_type : string) (net : Net)
    (t : Table) (idxs : list Z) :
  get_table net element_type = Some t ->
  forall (results : list ContingencyOutcome) (s : Session),
    heap s !! orig_net = Some net ->
    exists s',
      sweep_indices runpp orig_net element_type idxs results s =
      (Ok (results
           ++ List.map (fun idx => outcome_of net (element_type, idx)) idxs),
       s')
      /\ extends s s'.
Proof.
  intros Ht. induction idxs as [ | idx rest IH]; intros results s Ho; cbn.
  - exists s. rewrite app_nil_r. split; [reflexivity | apply extends_refl].
  - unfold bind. rewrite (contingency_case_run _ _ idx s net t Ho Ht).
    set (s1 := {| heap := _; _current_net := _; log := _ |}).
    assert (Hs1 : extends s s1).
    { split; [reflexivity | ]. cbn. eauto. }
    destruct (IH (results ++ [outcome_of net (element_type, idx)]) s1)
      as [s' [Hrun Hext]].
    { eapply extends_lookup; eassumption. }
    exists s'. rewrite Hrun. rewrite <- app_assoc. cbn.
    split; [reflexivity | eapply extends_trans; eassumption].
Qed.

Lemma deepcopy_run (r : ref) (s : Session) (net : Net) :
  heap s !! r = Some net ->
  deepcopy r s =
  (Ok (length (heap s)),
   {| heap := heap s ++ [net]; _current_net := _current_net s;
      log := log s |}).
Proof.
  intros Hr. unfold deepcopy, bind, deref. rewrite Hr. reflexivity.
Qed.

Lemma table_index_run (r : ref) (element_type : string) (s : Session)
    (net : Net) (t : Table) :
  heap s !! r = Some net ->
  get_table net element_type = Some t ->
  table_index r element_type s = (Ok (index t), s).
Proof.
  intros Hr Ht. unfold table_index, bind, deref. rewrite Hr, Ht. reflexivity.
Qed.

Lemma sweep_elements_run (r orig_net : ref) (net : Net)
    (element_types : list string) :
  Forall (fun element_type => is_Some (get_table net element_type))
         element_types ->
  forall (results : list ContingencyOutcome) (s : Session),
    heap s !! r = Some net ->
    heap s !! orig_net = Some net ->
    exists s',
      sweep_elements runpp r orig_net element_types results s =
      (Ok (results
           ++ List.map (outcome_of net) (contingency_cases net element_types)),
       s')
      /\ extends s s'.
Proof.
  induction 1 as [ | et rest [t Ht] _ IH]; intros results s Hr Ho; cbn.
  - exists s. rewrite app_nil_r. split; [reflexivity | apply extends_refl].
  - unfold bind. rewrite (table_index_run r et s net t Hr Ht).
    destruct (sweep_indices_run orig_net et net t (index t) Ht results s Ho)
      as [s1 [Hrun1 Hext1]].
    rewrite Hrun1.
    destruct (IH (results
                  ++ List.map (fun idx => outcome_of net (et, idx)) (index t))
                 s1)
      as [s' [Hrun Hext]];
      try (eapply extends_lookup; eassumption).
    exists s'. rewrite Hrun. split; [ | eapply extends_trans; eassumption].
    rewrite Ht, List.map_app, List.map_map, <- app_assoc. reflexivity.
Qed.

Lemma run_contingency_analysis_run (s : Session) (r : ref) (net : Net)
    (contingency_type : string) (elements : option (list string)) :
  loaded s r net ->
  Forall (fun element_type => is_Some (get_table net element_type))
         (requested elements) ->
  fst (run_contingency_analysis contingency_type elements s) =
  {| status := success;
     message := "Contingency analysis completed";
     payload := ContingencyPayload
                  (List.map (outcome_of net)
                     (contingency_cases net (requested elements))) |}.
Proof.
  intros [Hcur Hr] Hvalid.
  unfold Panda.run_contingency_analysis, tool, bind, _get_network.
  rewrite Hcur, (deepcopy_run r s net Hr).
  set (s1 := {| heap := _; _current_net := _; log := _ |}).
  destruct (sweep_elements_run r (length (heap s)) net (requested elements)
              Hvalid [] s1) as [s' [Hrun _]].
  { cbn. now apply lookup_app_l_Some. }
  { cbn. apply lookup_fresh. }
  unfold requested in Hrun. rewrite Hrun. reflexivity.
Qed.

(** C3: on a loaded network, when every requested element type names a
    table of the network, [run_contingency_analysis] returns a
    success-status result whose [results] list has one outcome per element
    of those tables, in sweep order, each named after its element; an
    element whose re-solve raises gets the outcome that records the
    exception text (with [converged] false and no violations), and every
    other element gets the outcome of its own re-solve, whatever happened
    to the rest. *)
Theorem contingency_sweep_one_outcome_per_element (s : Session) (r : ref)
    (net : Net) (contingency_type : string) (elements : option (list string)) :
  loaded s r net ->
  Forall (fun element_type => is_Some (get_table net element_type))
         (requested elements) ->
  exists outcomes,
    fst (run_contingency_analysis contingency_type elements s)
    = {| status := success;
         message := "Contingency analysis completed";
         payload := ContingencyPayload outcomes |}
    /\ length outcomes = length (contingency_cases net (requested elements))
    /\ List.map contingency outcomes
       = List.map (fun c => contingency_name (fst c) (snd c))
           (contingency_cases net (requested elements))
    /\ forall i c,
         contingency_cases net (requested elements) !! i = Some c ->
         (forall e, snd (runpp None (without_element net c)) = Some e ->
                    outcomes !! i = Some (failed_outcome c e))
         /\ (snd (runpp None (without_element net c)) = None ->
             outcomes !! i
             = Some (solved_outcome c
                       (fst (runpp None (without_element net c))))).
Proof.
  intros Hloaded Hvalid.
  exists (List.map (outcome_of net) (contingency_cases net (requested elements))).
  split; [now apply (run_contingency_analysis_run s r) | ].
  split; [apply length_map | ].
  split.
  - rewrite List.map_map. apply List.map_ext. intros c.
    unfold outcome_of.
    destruct (snd (runpp None (without_element net c))); reflexivity.
  - intros i c Hc.
    assert (Hi : List.map (outcome_of net)
                   (contingency_cases net (requested elements)) !! i
                 = Some (outcome_of net c)).
    { change (List.map (outcome_of net)) with (fmap (M := list) (outcome_of net)).
      rewrite list_lookup_fmap, Hc. reflexivity. }
    rewrite Hi. unfold outcome_of. split.
    + intros e He. now rewrite He.
    + intros Hnone. now rewrite Hnone.
Qed.

(** *** Loading and solving in one call *)

Lemma current_net_object_run (s : Session) (r : ref) (net : Net) :
  loaded s r net -> current_net_object s = (Ok net, s).
Proof.
  intros [Hcur Hr]. unfold current_net_object, deref. now rewrite Hcur, Hr.
Qed.

Lemma _current_net_ref_run (s : Session) (r : ref) (net : Net) :
  loaded s r net -> _current_net_ref s = (Ok r, s).
Proof.
  intros [Hcur Hr]. unfold _current_net_ref. now rewrite Hcur.
Qed.

(** The handler of [load_and_run_power_flow], by exception class. *)
Definition load_and_run_error (file_path : string) (e : Exn) : ToolResult :=
  match exn_class e with
  | FileNotFoundError => error_result ("File not found: " +:+ file_path)
  | ValueError => error_result (exn_str e)
  | _ => error_result
           ("Failed to load network and run power flow: " +:+ exn_str e)
  end.

Lemma load_and_run_error_status (file_path : string) (e : Exn) :
  status (load_and_run_error file_path e) = error
  /\ payload (load_and_run_error file_path e) = NoPayload.
Proof. unfold load_and_run_error. destruct (exn_class e); split; reflexivity. Qed.

Definition load_and_run_success (file_path : string) (loaded_net solved : Net)
  : ToolResult :=
  {| status := success;
     message :=
       if converged solved
       then "Network loaded from " +:+ file_path
            +:+ " and power flow completed successfully"
       else "Network loaded from " +:+ file_path
            +:+ " but power flow did not converge";
     payload := LoadAndRunPayload (network_info_of loaded_net)
                  (power_flow_results_of solved) |}.

Lemma load_and_run_power_flow_run (file_path : string) (params : PFParams)
    (s : Session) :
  load_and_run_power_flow file_path params s =
  match deserialize file_path with
  | None => (error_result unsupported_msg, s)
  | Some (inl e) =>
      (load_and_run_error file_path e,
       {| heap := heap s; _current_net := _current_net s;
          log := log s ++ read_event file_path |})
  | Some (inr net) =>
      (match snd (runpp (Some params) net) with
       | Some e => load_and_run_error file_path e
       | None =>
           load_and_run_success file_path net
             (fst (runpp (Some params) net))
       end,
       {| heap := heap s ++ [fst (runpp (Some params) net)];
          _current_net := Some (length (heap s));
          log := (log s ++ read_event file_path)
                 ++ [EvRunpp (length (heap s)) (Some params)] |})
  end.
Proof.
  unfold Panda.load_and_run_power_flow, tool, bind.
  rewrite load_by_extension_run.
  destruct (deserialize file_path) as [[e | net] | ]; try reflexivity.
  set (s1 := {| heap := heap s ++ [net]; _current_net := _; log := _ |}).
  assert (Hloaded : loaded s1 (length (heap s)) net).
  { split; [reflexivity | apply lookup_fresh]. }
  rewrite (current_net_object_run s1 _ net Hloaded).
  rewrite (_current_net_ref_run s1 _ net Hloaded).
  rewrite (pp_runpp_run _ _ s1 net (proj2 Hloaded)). cbn [heap s1].
  rewrite insert_fresh.
  destruct (snd (runpp (Some params) net)) as [e | ]; [reflexivity | ].
  unfold deref. cbn. rewrite lookup_fresh. reflexivity.
Qed.

(** The [network_info] counts and the [converged] flag a result carries,
    if it carries them. *)
Definition network_info_counts (res : ToolResult) : option NetworkInfo :=
  match payload res with
  | NetworkInfoPayload ni => Some ni
  | LoadAndRunPayload ni _ => Some ni
  | _ => None
  end.

Definition converged_flag (res : ToolResult) : option bool :=
  match payload res with
  | PowerFlowPayload pf => Some (pf_converged pf)
  | LoadAndRunPayload _ pf => Some (pf_converged pf)
  | _ => None
  end.

(** The round trip read as it is worded: whenever the load succeeds, the
    combined call reports what [load_network] reports as counts and what
    [run_power_flow] reports as flag; when it fails, the combined call
    fails. *)
Definition round_trip_as_stated (file_path : string) (params : PFParams)
    (s : Session) : Prop :=
  match status (fst (load_network file_path s)) with
  | error =>
      status (fst (load_and_run_power_flow file_path params s)) = error
  | success =>
      network_info_counts (fst (load_and_run_power_flow file_path params s))
      = network_info_counts (fst (load_network file_path s))
      /\ converged_flag (fst (load_and_run_power_flow file_path params s))
         = converged_flag
             (fst (run_power_flow params (snd (load_network file_path s))))
  end.

(** C4, amended: [load_and_run_power_flow] against [load_network]
    followed by [run_power_flow] with the same parameters.  When the load
    fails, the combined call returns an error-status result with the same
    message up to the prefix of the catch-all handler, and leaves the
    session exactly as the failed load does, so no solve is run.  When the
    load succeeds, both ways end in the same session and the combined call
    has the status of [run_power_flow].  A combined success carries the
    counts that [load_network] reported and the power-flow results, so the
    [converged] flag, that [run_power_flow] reported.  A combined error
    carries neither. *)
Theorem load_and_run_matches_load_then_run (file_path : string)
    (params : PFParams) (s : Session) :
  (status (fst (load_network file_path s)) = error ->
     status (fst (load_and_run_power_flow file_path params s)) = error
     /\ snd (load_and_run_power_flow file_path params s)
        = snd (load_network file_path s)
     /\ (message (fst (load_and_run_power_flow file_path params s))
         = message (fst (load_network file_path s))
         \/ exists text,
              message (fst (load_network file_path s))
              = "Failed to load network: " +:+ text
              /\ message (fst (load_and_run_power_flow file_path params s))
                 = "Failed to load network and run power flow: " +:+ text))
  /\ (status (fst (load_network file_path s)) = success ->
        snd (load_and_run_power_flow file_path params s)
        = snd (run_power_flow params (snd (load_network file_path s)))
        /\ status (fst (load_and_run_power_flow file_path params s))
           = status (fst (run_power_flow params
                            (snd (load_network file_path s)))))
  /\ (status (fst (load_and_run_power_flow file_path params s)) = success ->
        exists ni pf,
          payload (fst (load_and_run_power_flow file_path params s))
          = LoadAndRunPayload ni pf
          /\ payload (fst (load_network file_path s)) = NetworkInfoPayload ni
          /\ payload (fst (run_power_flow params
                             (snd (load_network file_path s))))
             = PowerFlowPayload pf)
  /\ (status (fst (load_and_run_power_flow file_path params s)) = error ->
        payload (fst (load_and_run_power_flow file_path params s))
        = NoPayload).
Proof.
  rewrite load_and_run_power_flow_run, load_network_run.
  destruct (deserialize file_path) as [[e | net] | ]; cbn [fst snd].
  - (* the reader raised *)
    destruct (load_and_run_error_status file_path e) as [Hst Hpl].
    split; [ | split; [ | split]].
    + intros _. split; [exact Hst | ]. split; [reflexivity | ].
      unfold load_and_run_error, load_error.
      destruct (exn_class e); cbn; eauto.
    + intros H. rewrite load_error_status in H. discriminate.
    + intros H. rewrite Hst in H. discriminate.
    + intros _. exact Hpl.
  - (* a network was read *)
    set (s1 := {| heap := heap s ++ [net]; _current_net := _; log := _ |}).
    assert (Hloaded : loaded s1 (length (heap s)) net).
    { split; [reflexivity | apply lookup_fresh]. }
    rewrite (run_power_flow_run params s1 _ net Hloaded). cbn [fst snd heap s1].
    rewrite insert_fresh.
    split; [discriminate | ].
    destruct (snd (runpp (Some params) net)) as [e | ].
    + destruct (load_and_run_error_status file_path e) as [Hst Hpl].
      split; [ | split].
      * intros _. split; [reflexivity | ].
        now rewrite Hst, solve_error_status.
      * intros H. rewrite Hst in H. discriminate.
      * intros _. exact Hpl.
    + split; [ | split].
      * intros _. split; reflexivity.
      * intros _. eexists _, _. repeat split.
      * discriminate.
  - (* unsupported extension *)
    split; [ | split; [ | split]].
    + intros _. split; [reflexivity | ]. split; [reflexivity | now left].
    + discriminate.
    + discriminate.
    + reflexivity.
Qed.

End PandaProperties.

(** *** Non-convergence as pandapower signals it *)

Section PandaSolver.

Import Panda.

Variable runpp : option PFParams -> Net -> Net * option Exn.

Local Abbreviation run_power_flow := (Panda.run_power_flow runpp).

(** C1 fails on the code: on a loaded network whose solve does not
    converge, [pp.runpp] raises [LoadflowNotConverged], the catch-all
    handler of [run_power_flow] takes it, and the tool returns the
    error-status result "Power flow calculation failed: ..." with no
    [converged] flag at all.  And since [pp.runpp] returns only when the
    iteration has converged, every success-status result of
    [run_power_flow] carries [converged = true]: the branch written for
    [converged = false] is never taken. *)
Theorem nonconvergence_is_reported_as_an_error (params : PFParams)
    (s : Session) (r : ref) (net : Net) :
  loaded s r net ->
  (forall msg,
     snd (runpp (Some params) net) = Some (Pandapower.LoadflowNotConverged msg) ->
     fst (run_power_flow params s)
     = {| status := error;
          message := "Power flow calculation failed: " +:+ msg;
          payload := NoPayload |}
     /\ converged_flag (fst (run_power_flow params s)) = None)
  /\ (Pandapower.returns_only_when_converged runpp ->
      forall results,
        payload (fst (run_power_flow params s)) = PowerFlowPayload results ->
        status (fst (run_power_flow params s)) = success
        /\ pf_converged results = true
        /\ message (fst (run_power_flow params s))
           = "Power flow calculation completed successfully").
Proof.
  intros Hloaded. rewrite (run_power_flow_run runpp params s r net Hloaded).
  cbn [fst]. split.
  - intros msg Hraise. rewrite Hraise. split; reflexivity.
  - intros Hlib results.
    pose proof (Hlib (Some params) net) as Hconv.
    destruct (snd (runpp (Some params) net)) as [e | ].
    + unfold solve_error. destruct (exn_class e); discriminate.
    + unfold solve_success. cbn. rewrite (Hconv eq_refl).
      intros Hpayload. injection Hpayload as <-. cbn.
      rewrite (Hconv eq_refl). repeat split.
Qed.

End PandaSolver.

Lemma demo_library_returns_only_when_converged :
  Pandapower.returns_only_when_converged DemoLibrary.runpp.
Proof.
  intros params net. unfold DemoLibrary.runpp.
  destruct (Demo.runpp params net) as [net' [e | ]]; cbn; [discriminate | ].
  destruct (Panda.converged net') eqn:Hconv; cbn; [auto | discriminate].
Qed.

(** The witnesses run in the world of [Demo]. *)

Lemma no_network_is_an_error_result_holds_initially :
  Panda.run_power_flow Demo.runpp Panda.default_params Panda.initial_session
    = (Panda.error_result no_network_msg, Panda.initial_session)
  /\ Panda.run_contingency_analysis Demo.runpp "N-1" None Panda.initial_session
     = (Panda.error_result no_network_msg, Panda.initial_session)
  /\ Panda.get_network_info Panda.initial_session
     = (Panda.error_result no_network_msg, Panda.initial_session).
Proof.
  apply (no_network_is_an_error_result Demo.runpp Panda.initial_session
           Panda.default_params "N-1" None).
  reflexivity.
Defined.

Lemma unsupported_extension_rejected_on_csv :
  Panda.load_network Demo.from_json Demo.from_pickle "grid.csv" Demo.grid_session
    = (Panda.error_result unsupported_msg, Demo.grid_session)
  /\ Panda.status (fst (Panda.load_network Demo.from_json Demo.from_pickle
                          "grid.csv" Demo.grid_session)) = Panda.error.
Proof.
  apply (unsupported_extension_rejected Demo.from_json Demo.from_pickle
           "grid.csv" Demo.grid_session); reflexivity.
Defined.

Lemma failed_load_keeps_network_on_missing_file :
  Panda._current_net
    (snd (Panda.load_network Demo.from_json Demo.from_pickle "lost.json"
            Demo.grid_session)) = Some 0
  /\ Panda.heap
       (snd (Panda.load_network Demo.from_json Demo.from_pickle "lost.json"
               Demo.grid_session)) = [Demo.grid].
Proof.
  apply (proj1 (failed_load_keeps_network Demo.from_json Demo.from_pickle
                  "lost.json" Demo.grid_session)).
  reflexivity.
Defined.

Lemma nonconvergence_is_not_an_error_on_weak_grid :
  Panda.status (fst (Panda.run_power_flow Demo.runpp Panda.default_params
                       Demo.weak_session)) = Panda.success
  /\ Panda.message (fst (Panda.run_power_flow Demo.runpp Panda.default_params
                           Demo.weak_session)) = "Power flow did not converge".
Proof.
  pose proof (nonconvergence_is_not_an_error Demo.runpp Panda.default_params
                Demo.weak_session 0 Demo.weak_grid
                (conj eq_refl eq_refl)) as [Hsolve _].
  destruct (Hsolve eq_refl eq_refl) as [Hres _].
  rewrite Hres. split; reflexivity.
Defined.

Lemma contingency_analysis_keeps_network_on_grid :
  loaded (snd (Panda.run_contingency_analysis Demo.runpp "N-1" None
                 Demo.grid_session)) 0 Demo.grid.
Proof.
  apply (proj2 (contingency_analysis_keeps_network Demo.runpp
                  Demo.grid_session "N-1" None)).
  split; reflexivity.
Defined.

Lemma contingency_sweep_on_grid :
  exists outcomes,
    fst (Panda.run_contingency_analysis Demo.runpp "N-1" None Demo.grid_session)
    = {| Panda.status := Panda.success;
         Panda.message := "Contingency analysis completed";
         Panda.payload := Panda.ContingencyPayload outcomes |}
    /\ length outcomes = 3
    /\ List.map Panda.contingency outcomes = ["line_0"; "line_5"; "trafo_2"].
Proof.
  destruct (contingency_sweep_one_outcome_per_element Demo.runpp
              Demo.grid_session 0 Demo.grid "N-1" None)
    as [outcomes [Hres [Hlen [Htags _]]]].
  - split; reflexivity.
  - repeat constructor; eexists; reflexivity.
  - exists outcomes. split; [exact Hres | ]. split; [exact Hlen | exact Htags].
Defined.

(** The sweep of the demo grid: the two line outages are solved (without
    convergence, bus 1 and line 0 in violation), the transformer outage
    makes the solver raise and is recorded as that element's error. *)
Example contingency_sweep_demo :
  fst (Panda.run_contingency_analysis Demo.runpp "N-1" None Demo.grid_session)
  = {| Panda.status := Panda.success;
       Panda.message := "Contingency analysis completed";
       Panda.payload := Panda.ContingencyPayload
         [ {| Panda.contingency := "line_0"; Panda.c_converged := false;
              Panda.violations := Some (Panda.mkViol [1%Z] [0%Z]);
              Panda.c_error := None |};
           {| Panda.contingency := "line_5"; Panda.c_converged := false;
              Panda.violations := Some (Panda.mkViol [1%Z] [0%Z]);
              Panda.c_error := None |};
           {| Panda.contingency := "trafo_2"; Panda.c_converged := false;
              Panda.violations := None;
              Panda.c_error := Some "singular matrix" |} ] |}.
Proof. vm_compute. reflexivity. Qed.

(** A requested type that names no table ends the call in the outer
    handler. *)
Example contingency_sweep_unknown_type :
  fst (Panda.run_contingency_analysis Demo.runpp "N-1" (Some ["line"; "cable"])
         Demo.grid_session)
  = Panda.error_result "Contingency analysis failed: 'cable'".
Proof. vm_compute. reflexivity. Qed.

Lemma load_and_run_matches_load_then_run_on_grid :
  exists ni pf,
    Panda.payload
      (fst (Panda.load_and_run_power_flow Demo.from_json Demo.from_pickle
              Demo.runpp "grid.json" Panda.default_params Panda.initial_session))
    = Panda.LoadAndRunPayload ni pf
    /\ Panda.payload
         (fst (Panda.load_network Demo.from_json Demo.from_pickle "grid.json"
                 Panda.initial_session))
       = Panda.NetworkInfoPayload ni
    /\ Panda.payload
         (fst (Panda.run_power_flow Demo.runpp Panda.default_params
                 (snd (Panda.load_network Demo.from_json Demo.from_pickle
                         "grid.json" Panda.initial_session))))
       = Panda.PowerFlowPayload pf.
Proof.
  apply (proj1 (proj2 (proj2
           (load_and_run_matches_load_then_run Demo.from_json Demo.from_pickle
              Demo.runpp "grid.json" Panda.default_params
              Panda.initial_session)))).
  reflexivity.
Defined.

(** C4 as worded fails on a file that loads and whose solve raises:
    [load_network] reports the counts, the combined call returns an error
    result that carries none. *)
Lemma round_trip_fails_when_the_solve_raises :
  network_info_counts
    (fst (Panda.load_network Demo.from_json Demo.from_pickle "no_bus.json"
            Panda.initial_session))
  = Some (Panda.mkInfo 0 0 0)
  /\ network_info_counts
       (fst (Panda.load_and_run_power_flow Demo.from_json Demo.from_pickle
               Demo.runpp "no_bus.json" Panda.default_params
               Panda.initial_session))
     = None
  /\ ~ round_trip_as_stated Demo.from_json Demo.from_pickle Demo.runpp
         "no_bus.json" Panda.default_params Panda.initial_session.
Proof.
  split; [reflexivity | ]. split; [reflexivity | ].
  unfold round_trip_as_stated. cbn. intros [H _]. discriminate H.
Qed.

(** ** Properties of the orchestration node *)

Section GraphProperties.

Import Graph.

Variable Args : Type.
Variable World : Type.
Variable model :
  list Tool -> list (Message Args) -> World -> (Exn + Response Args) * World.
Variable transport : Tool -> Args -> World -> (Exn + string) * World.
Variable discover : Exn + list Tool.
Variable empty_args : Args.
Variable chat_instructions : string -> string.
Variable get_current_date : string.

Local Abbreviation State := (NodeState Args World).
Local Abbreviation chat_node :=
  (Graph.chat_node Args World model transport discover empty_args
     chat_instructions get_current_date).
Local Abbreviation execute_all_tools :=
  (Graph.execute_all_tools Args World transport empty_args).
Local Abbreviation execute_one :=
  (Graph.execute_one Args World transport empty_args).
Local Abbreviation llm_invoke := (Graph.llm_invoke Args World model).

(** The tools bound in a turn, and the messages of its first pass. *)
Definition bound_tools (configurable : Configuration) : list Tool :=
  if enable_mcp configurable then get_mcp_tools discover configurable else [].

Definition first_pass (state_messages : list (Message Args))
    (configurable : Configuration) : list (Message Args) :=
  SystemMessage
    (enhanced_prompt chat_instructions get_current_date
       (bound_tools configurable))
  :: state_messages.

(** Counting in the log. *)
Definition is_model_event (ev : Event Args) : bool :=
  match ev with
  | EvModel _ _ => true
  | EvTool _ _ => false
  end.

Definition model_invocations (evs : list (Event Args)) : nat :=
  length (List.filter is_model_event evs).

Definition tool_invocations (evs : list (Event Args)) : list (Event Args) :=
  List.filter (fun ev => negb (is_model_event ev)) evs.

Definition args_of (tool_call : ToolCall Args) : Args :=
  match tc_args tool_call with
  | Some a => a
  | None => empty_args
  end.

(** The transport calls one round makes: one per call whose name is the
    name of a bound tool, in request order, and none for the others. *)
Definition dispatched (tools : list Tool) (calls : list (ToolCall Args))
  : list (Event Args) :=
  flat_map (fun tool_call =>
              match matching_tool tools tool_call with
              | Some tool => [EvTool tool (args_of tool_call)]
              | None => []
              end) calls.

(** The entry one call gets in a given world, and the world after it. *)
Definition entry_in (tools : list Tool) (tool_call : ToolCall Args) (w : World)
  : ToolResultEntry :=
  {| tool_call_id := call_id tool_call;
     entry_name := tc_name tool_call;
     entry_content :=
       match matching_tool tools tool_call with
       | None => not_found_msg tool_call
       | Some tool =>
           match fst (transport tool (args_of tool_call) w) with
           | inr result => result
           | inl e => failed_msg tool_call e
           end
       end |}.

Definition world_after (tools : list Tool) (tool_call : ToolCall Args) (w : World)
  : World :=
  match matching_tool tools tool_call with
  | None => w
  | Some tool => snd (transport tool (args_of tool_call) w)
  end.

Fixpoint round_entries (tools : list Tool) (calls : list (ToolCall Args))
    (w : World) : list ToolResultEntry :=
  match calls with
  | [] => []
  | tool_call :: rest =>
      entry_in tools tool_call w
      :: round_entries tools rest (world_after tools tool_call w)
  end.

Fixpoint round_world (tools : list Tool) (calls : list (ToolCall Args))
    (w : World) : World :=
  match calls with
  | [] => w
  | tool_call :: rest => round_world tools rest (world_after tools tool_call w)
  end.

Lemma llm_invoke_run (bound : list Tool) (messages : list (Message Args))
    (s : State) :
  llm_invoke bound messages s =
  (match fst (model bound messages (world s)) with
   | inl e => Raise e
   | inr response => Ok response
   end,
   {| world := snd (model bound messages (world s));
      events := events s ++ [EvModel bound messages] |}).
Proof.
  unfold Graph.llm_invoke, bind, emit, call. cbn.
  destruct (fst (model bound messages (world s))); reflexivity.
Qed.

Lemma execute_one_run (tools : list Tool) (tool_call : ToolCall Args) (s : State) :
  execute_one tools tool_call s =
  (Ok (entry_in tools tool_call (world s)),
   {| world := world_after tools tool_call (world s);
      events := events s ++ dispatched tools [tool_call] |}).
Proof.
  unfold Graph.execute_one, entry_in, world_after, dispatched, try_except.
  cbn [flat_map].
  destruct (matching_tool tools tool_call) as [tool | ].
  - unfold bind, execute_tool_async, try_except, emit, call, args_of. cbn.
    destruct (fst (transport tool _ (world s))); reflexivity.
  - cbn. rewrite app_nil_r. destruct s; reflexivity.
Qed.

Lemma execute_all_tools_run (tools : list Tool) (calls : list (ToolCall Args)) :
  forall (tool_results : list ToolResultEntry) (s : State),
    execute_all_tools tools calls tool_results s =
    (Ok (tool_results ++ round_entries tools calls (world s)),
     {| world := round_world tools calls (world s);
        events := events s ++ dispatched tools calls |}).
Proof.
  induction calls as [ | tool_call rest IH]; intros tool_results s; cbn.
  - unfold ret. rewrite !app_nil_r. destruct s; reflexivity.
  - unfold bind. rewrite execute_one_run, IH. cbn [world events].
    unfold dispatched. cbn [flat_map round_entries round_world].
    rewrite <- !app_assoc. reflexivity.
Qed.

Lemma round_entries_length (tools : list Tool) (calls : list (ToolCall Args)) :
  forall w, length (round_entries tools calls w) = length calls.
Proof. induction calls; intros w; cbn; auto. Qed.

Lemma round_entries_lookup (tools : list Tool) (calls : list (ToolCall Args)) :
  forall (w : World) (i : nat) (tool_call : ToolCall Args),
    calls !! i = Some tool_call ->
    exists w', round_entries tools calls w !! i
               = Some (entry_in tools tool_call w').
Proof.
  induction calls as [ | c rest IH]; intros w i tool_call Hi.
  - discriminate.
  - destruct i as [ | i]; cbn in *.
    + injection Hi as ->. eauto.
    + eapply IH; eassumption.
Qed.

Lemma model_invocations_app (evs evs' : list (Event Args)) :
  model_invocations (evs ++ evs')
  = model_invocations evs + model_invocations evs'.
Proof.
  unfold model_invocations. now rewrite List.filter_app, length_app.
Qed.

Lemma dispatched_no_model (tools : list Tool) (calls : list (ToolCall Args)) :
  model_invocations (dispatched tools calls) = 0.
Proof.
  induction calls as [ | c rest IH]; [reflexivity | ].
  unfold dispatched in *. cbn [flat_map]. rewrite model_invocations_app, IH.
  destruct (matching_tool tools c); reflexivity.
Qed.

(** What a turn does, by the outcome of the first model invocation. *)
Definition follow_up (state_messages : list (Message Args))
    (configurable : Configuration) (response : Response Args) (w : World)
  : list (Message Args) :=
  first_pass state_messages configurable
  ++ [as_message response]
  ++ List.map (tool_message)
       (round_entries (bound_tools configurable) (tool_calls response) w).

Lemma chat_node_run (state_messages : list (Message Args))
    (configurable : Configuration) (s : State) :
  let tools := bound_tools configurable in
  let messages := first_pass state_messages configurable in
  let out1 := model tools messages (world s) in
  chat_node state_messages configurable s =
  match fst out1 with
  | inl e =>
      (Raise e,
       {| world := snd out1;
          events := events s ++ [EvModel tools messages] |})
  | inr response =>
      match tool_calls response with
      | [] =>
          (Ok [AIMessage (content response) []],
           {| world := snd out1;
              events := events s ++ [EvModel tools messages] |})
      | _ :: _ =>
          let w2 := round_world tools (tool_calls response) (snd out1) in
          let messages2 :=
            follow_up state_messages configurable response (snd out1) in
          let out2 := model tools messages2 w2 in
          (match fst out2 with
           | inl e => Raise e
           | inr final_response =>
               Ok [AIMessage (content final_response) []]
           end,
           {| world := snd out2;
              events := ((events s ++ [EvModel tools messages])
                         ++ dispatched tools (tool_calls response))
                        ++ [EvModel tools messages2] |})
      end
  end.
Proof.
  cbv zeta. unfold Graph.chat_node. cbv zeta.
  fold (bound_tools configurable).
  fold (first_pass state_messages configurable).
  unfold bind at 1. rewrite llm_invoke_run.
  destruct (fst (model _ _ (world s))) as [e | response]; [reflexivity | ].
  destruct (tool_calls response) as [ | c rest] eqn:Hcalls; [reflexivity | ].
  unfold bind at 1. rewrite execute_all_tools_run. cbn [app world events].
  unfold bind. rewrite llm_invoke_run. cbn [world events].
  unfold follow_up. rewrite Hcalls.
  destruct (fst (model _ _ _)); reflexivity.
Qed.

Lemma tool_invocations_app (evs evs' : list (Event Args)) :
  tool_invocations (evs ++ evs') = tool_invocations evs ++ tool_invocations evs'.
Proof. unfold tool_invocations. apply List.filter_app. Qed.

Lemma dispatched_all_tool (tools : list Tool) (calls : list (ToolCall Args)) :
  tool_invocations (dispatched tools calls) = dispatched tools calls.
Proof.
  induction calls as [ | c rest IH]; [reflexivity | ].
  unfold dispatched in *. cbn [flat_map]. rewrite tool_invocations_app, IH.
  destruct (matching_tool tools c); reflexivity.
Qed.

(** C5: when the first response carries no tool call, the turn invokes
    the model once (the one event it adds to the log), calls no tool,
    and returns one assistant message whose content is the content of that
    response. *)
Theorem no_tool_calls_single_invocation (state_messages : list (Message Args))
    (configurable : Configuration) (s : State) (response : Response Args)
    (w1 : World) :
  model (bound_tools configurable) (first_pass state_messages configurable)
        (world s) = (inr response, w1) ->
  tool_calls response = [] ->
  chat_node state_messages configurable s
  = (Ok [AIMessage (content response) []],
     {| world := w1;
        events := events s
                  ++ [EvModel (bound_tools configurable)
                        (first_pass state_messages configurable)] |})
  /\ model_invocations (events (snd (chat_node state_messages configurable s)))
     = model_invocations (events s) + 1
  /\ tool_invocations (events (snd (chat_node state_messages configurable s)))
     = tool_invocations (events s).
Proof.
  intros Hmodel Hcalls.
  pose proof (chat_node_run state_messages configurable s) as Hrun.
  cbv zeta in Hrun. rewrite Hmodel in Hrun. cbn [fst snd] in Hrun.
  rewrite Hcalls in Hrun. rewrite Hrun. cbn [snd events].
  split; [reflexivity | ].
  rewrite model_invocations_app, tool_invocations_app. cbn.
  split; [reflexivity | apply app_nil_r].
Qed.

Lemma matching_tool_none (tools : list Tool) (tool_call : ToolCall Args) :
  (forall tool, In tool tools -> name tool <> tc_name tool_call) ->
  matching_tool tools tool_call = None.
Proof.
  intros Hnone. unfold matching_tool.
  destruct (List.find _ tools) as [tool | ] eqn:Hfind; [ | reflexivity].
  apply List.find_some in Hfind as [Hin Heq].
  apply String.eqb_eq in Heq. now apply Hnone in Hin.
Qed.

Lemma matching_tool_some (tools : list Tool) (tool_call : ToolCall Args)
    (tool : Tool) :
  In tool tools ->
  name tool = tc_name tool_call ->
  exists tool', matching_tool tools tool_call = Some tool'.
Proof.
  intros Hin Hname. unfold matching_tool.
  destruct (List.find _ tools) as [tool' | ] eqn:Hfind; [eauto | ].
  pose proof (List.find_none _ _ Hfind tool Hin) as Hne. cbn in Hne.
  rewrite Hname, String.eqb_refl in Hne. discriminate.
Qed.

Lemma matching_tool_is_bound (tools : list Tool) (tool_call : ToolCall Args)
    (tool : Tool) :
  matching_tool tools tool_call = Some tool ->
  In tool tools /\ name tool = tc_name tool_call.
Proof.
  unfold matching_tool. intros Hfind.
  apply List.find_some in Hfind as [Hin Heq].
  split; [exact Hin | now apply String.eqb_eq].
Qed.

Lemma dispatched_in (tools : list Tool) (calls : list (ToolCall Args))
    (ev : Event Args) :
  In ev (dispatched tools calls) <->
  exists tool_call tool,
    In tool_call calls
    /\ matching_tool tools tool_call = Some tool
    /\ ev = EvTool tool (args_of tool_call).
Proof.
  unfold dispatched. rewrite in_flat_map. split.
  - intros [c [Hc Hev]].
    destruct (matching_tool tools c) as [tool | ] eqn:Hm; [ | contradiction].
    destruct Hev as [<- | []]. eauto.
  - intros [c [tool [Hc [Hm ->]]]]. exists c. rewrite Hm.
    split; [exact Hc | now left].
Qed.

(** C6: when the first response carries [k] tool calls, the log of the
    turn is the first model invocation, then transport calls, then one
    more model invocation, whatever the tools return or raise.  The
    messages of that second invocation are the first-pass messages, the
    response with its tool calls, and [k] tool messages in request order;
    the [i]-th is tagged with the id of the [i]-th call (with
    [call_<name>] when the call carries no id).  A call whose name is the
    name of no bound tool gets the text [Tool '<name>' not found] and no
    transport call is made under its name; every transport call that is
    made is for a bound tool under the name and with the arguments of one
    of the calls, and every call that names a bound tool gets one. *)
Theorem tool_calls_answered_in_order (state_messages : list (Message Args))
    (configurable : Configuration) (s : State) (response : Response Args)
    (w1 : World) :
  model (bound_tools configurable) (first_pass state_messages configurable)
        (world s) = (inr response, w1) ->
  tool_calls response <> [] ->
  exists (tool_messages : list (Message Args))
         (transport_calls : list (Event Args)),
    events (snd (chat_node state_messages configurable s))
    = ((events s
        ++ [EvModel (bound_tools configurable)
              (first_pass state_messages configurable)])
       ++ transport_calls)
      ++ [EvModel (bound_tools configurable)
            (first_pass state_messages configurable
             ++ [AIMessage (content response) (tool_calls response)]
             ++ tool_messages)]
    /\ length tool_messages = length (tool_calls response)
    /\ (forall i tool_call,
          tool_calls response !! i = Some tool_call ->
          exists text tag,
            tool_messages !! i = Some (ToolMessage text tag)
            /\ (forall id, tc_id tool_call = Some id -> tag = id)
            /\ (tc_id tool_call = None ->
                tag = "call_" +:+ tc_name tool_call)
            /\ ((forall tool, In tool (bound_tools configurable) ->
                              name tool <> tc_name tool_call) ->
                text = "Tool '" +:+ tc_name tool_call +:+ "' not found"
                /\ forall tool args,
                     In (EvTool tool args) transport_calls ->
                     name tool <> tc_name tool_call))
    /\ (forall ev,
          In ev transport_calls ->
          exists tool_call tool,
            In tool_call (tool_calls response)
            /\ In tool (bound_tools configurable)
            /\ name tool = tc_name tool_call
            /\ ev = EvTool tool
                      match tc_args tool_call with
                      | Some a => a
                      | None => empty_args
                      end)
    /\ (forall tool_call tool,
          In tool_call (tool_calls response) ->
          In tool (bound_tools configurable) ->
          name tool = tc_name tool_call ->
          exists tool',
            In tool' (bound_tools configurable)
            /\ name tool' = tc_name tool_call
            /\ In (EvTool tool'
                     match tc_args tool_call with
                     | Some a => a
                     | None => empty_args
                     end) transport_calls)
    /\ model_invocations transport_calls = 0
    /\ model_invocations
         (events (snd (chat_node state_messages configurable s)))
       = model_invocations (events s) + 2.
Proof.
  intros Hmodel Hcalls.
  pose proof (chat_node_run state_messages configurable s) as Hrun.
  cbv zeta in Hrun. rewrite Hmodel in Hrun. cbn [fst snd] in Hrun.
  destruct (tool_calls response) as [ | c rest] eqn:Hc; [contradiction | ].
  rewrite <- Hc in *. rewrite Hrun. cbn [snd events].
  exists (List.map tool_message
            (round_entries (bound_tools configurable) (tool_calls response) w1)).
  exists (dispatched (bound_tools configurable) (tool_calls response)).
  split; [reflexivity | ]. split; [ | split; [ | split; [ | split; [ | split]]]].
  - now rewrite length_map, round_entries_length.
  - intros i tool_call Hi.
    destruct (round_entries_lookup (bound_tools configurable) _ w1 i tool_call Hi)
      as [w' Hw'].
    exists (entry_content (entry_in (bound_tools configurable) tool_call w')).
    exists (Graph.tool_call_id (entry_in (bound_tools configurable) tool_call w')).
    split; [ | split; [ | split]].
    + change (List.map tool_message) with (fmap (M := list) (@tool_message Args)).
      rewrite list_lookup_fmap, Hw'. reflexivity.
    + intros id Hid. cbn. unfold call_id. now rewrite Hid.
    + intros Hid. cbn. unfold call_id. now rewrite Hid.
    + intros Hunbound.
      pose proof (matching_tool_none _ _ Hunbound) as Hnone. split.
      * cbn. now rewrite Hnone.
      * intros tool args Hev.
        apply dispatched_in in Hev as [c' [tool' [_ [Hm Heq]]]].
        injection Heq as -> ->.
        apply matching_tool_is_bound in Hm as [Hin Hname].
        intros Hsame. apply (Hunbound tool' Hin Hsame).
  - intros ev Hev.
    apply dispatched_in in Hev as [c' [tool [Hin [Hm ->]]]].
    apply matching_tool_is_bound in Hm as [Hbound Hname].
    exists c', tool. auto.
  - intros tool_call tool Hin Hbound Hname.
    destruct (matching_tool_some _ _ tool Hbound Hname) as [tool' Hm].
    exists tool'.
    destruct (matching_tool_is_bound _ _ _ Hm) as [Hbound' Hname'].
    split; [exact Hbound' | ]. split; [exact Hname' | ].
    apply dispatched_in. exists tool_call, tool'. auto.
  - apply dispatched_no_model.
  - rewrite !model_invocations_app, dispatched_no_model. cbn. lia.
Qed.

(** C7: a turn invokes the model at most twice; when the first response
    carries tool calls, the tools the turn dispatches are those of the first
    response and nothing else, and whatever the second response is, also
    one that asks for tools, the turn ends there: its content is returned
    as the assistant message and the second model invocation is the last
    event of the log. *)
Theorem single_round_of_tool_calls (state_messages : list (Message Args))
    (configurable : Configuration) (s : State) :
  model_invocations (events (snd (chat_node state_messages configurable s)))
  <= model_invocations (events s) + 2
  /\ forall response w1,
       model (bound_tools configurable)
             (first_pass state_messages configurable) (world s)
       = (inr response, w1) ->
       tool_calls response <> [] ->
       tool_invocations
         (events (snd (chat_node state_messages configurable s)))
       = tool_invocations (events s)
         ++ dispatched (bound_tools configurable) (tool_calls response)
       /\ forall final_response w3,
            model (bound_tools configurable)
                  (follow_up state_messages configurable response w1)
                  (round_world (bound_tools configurable)
                     (tool_calls response) w1)
            = (inr final_response, w3) ->
            chat_node state_messages configurable s
            = (Ok [AIMessage (content final_response) []],
               {| world := w3;
                  events :=
                    ((events s
                      ++ [EvModel (bound_tools configurable)
                            (first_pass state_messages configurable)])
                     ++ dispatched (bound_tools configurable)
                          (tool_calls response))
                    ++ [EvModel (bound_tools configurable)
                          (follow_up state_messages configurable
                             response w1)] |}).
Proof.
  pose proof (chat_node_run state_messages configurable s) as Hrun.
  cbv zeta in Hrun. split.
  - rewrite Hrun.
    destruct (fst (model _ _ (world s))) as [e | response].
    + cbn [snd events]. rewrite model_invocations_app. cbn. lia.
    + destruct (tool_calls response) as [ | c rest].
      * cbn [snd events]. rewrite model_invocations_app. cbn. lia.
      * cbn [snd events].
        rewrite !model_invocations_app, dispatched_no_model. cbn. lia.
  - intros response w1 Hmodel Hcalls.
    rewrite Hmodel in Hrun. cbn [fst snd] in Hrun.
    destruct (tool_calls response) as [ | c rest] eqn:Hc; [contradiction | ].
    rewrite <- Hc in *. rewrite Hrun. cbn [snd events]. split.
    + rewrite !tool_invocations_app, dispatched_all_tool. cbn.
      now rewrite !app_nil_r.
    + intros final_response w3 Hfinal. rewrite Hfinal. reflexivity.
Qed.

End GraphProperties.

(** The witnesses run in the world of [DemoChat]. *)

Lemma no_tool_calls_single_invocation_without_mcp :
  fst (DemoChat.run DemoChat.without_mcp)
  = Ok [Graph.AIMessage "I have no tools." []]
  /\ model_invocations DemoChat.Args
       (Graph.events (snd (DemoChat.run DemoChat.without_mcp))) = 1.
Proof.
  destruct (no_tool_calls_single_invocation DemoChat.Args DemoChat.World
              DemoChat.model DemoChat.transport DemoChat.discover []
              DemoChat.chat_instructions "2025-01-01"
              DemoChat.question DemoChat.without_mcp DemoChat.start
              (Graph.mkResponse "I have no tools." []) Panda.initial_session
              eq_refl eq_refl) as [Hrun [Hcount _]].
  split; [ | exact Hcount].
  unfold DemoChat.run. rewrite Hrun. reflexivity.
Defined.

Lemma tool_calls_answered_in_order_in_demo :
  exists (tool_messages : list (Graph.Message DemoChat.Args))
         (transport_calls : list (Graph.Event DemoChat.Args)),
    length tool_messages = 3
    /\ (exists text,
          tool_messages !! 0 = Some (Graph.ToolMessage text "call_1"))
    /\ tool_messages !! 1
       = Some (Graph.ToolMessage "Tool 'lookup_weather' not found" "call_2")
    /\ (exists text,
          tool_messages !! 2
          = Some (Graph.ToolMessage text "call_run_power_flow"))
    /\ (forall tool args,
          In (Graph.EvTool tool args) transport_calls ->
          Graph.name tool <> "lookup_weather")
    /\ Graph.events (snd (DemoChat.run DemoChat.configurable))
       = ([Graph.EvModel DemoChat.tools
             (first_pass DemoChat.Args DemoChat.discover
                DemoChat.chat_instructions "2025-01-01" DemoChat.question
                DemoChat.configurable)]
          ++ transport_calls)
         ++ [Graph.EvModel DemoChat.tools
               (first_pass DemoChat.Args DemoChat.discover
                  DemoChat.chat_instructions "2025-01-01" DemoChat.question
                  DemoChat.configurable
                ++ [Graph.AIMessage "" DemoChat.first_calls]
                ++ tool_messages)]
    /\ model_invocations DemoChat.Args
         (Graph.events (snd (DemoChat.run DemoChat.configurable))) = 2.
Proof.
  destruct (tool_calls_answered_in_order DemoChat.Args DemoChat.World
              DemoChat.model DemoChat.transport DemoChat.discover []
              DemoChat.chat_instructions "2025-01-01"
              DemoChat.question DemoChat.configurable DemoChat.start
              (Graph.mkResponse "" DemoChat.first_calls) Panda.initial_session
              eq_refl ltac:(discriminate))
    as [tool_messages [transport_calls
          [Hevents [Hlen [Heach [_ [_ [_ Hcount]]]]]]]].
  exists tool_messages, transport_calls.
  destruct (Heach 0 _ eq_refl) as [text0 [tag0 [Hm0 [Hid0 _]]]].
  destruct (Heach 1 _ eq_refl) as [text1 [tag1 [Hm1 [Hid1 [_ Hunbound]]]]].
  destruct (Heach 2 _ eq_refl) as [text2 [tag2 [Hm2 [_ [Hid2 _]]]]].
  rewrite (Hid0 "call_1" eq_refl) in Hm0.
  rewrite (Hid1 "call_2" eq_refl) in Hm1.
  rewrite (Hid2 eq_refl) in Hm2.
  assert (Hweather : forall tool,
             In tool (bound_tools DemoChat.discover DemoChat.configurable) ->
             Graph.name tool <> "lookup_weather").
  { intros tool Hin. vm_compute in Hin.
    destruct Hin as [<- | [<- | []]]; discriminate. }
  destruct (Hunbound Hweather) as [Htext Hquiet]. rewrite Htext in Hm1.
  split; [exact Hlen | ]. split; [eauto | ]. split; [exact Hm1 | ].
  split; [eauto | ]. split; [exact Hquiet | ].
  split; [exact Hevents | exact Hcount].
Defined.

Lemma single_round_of_tool_calls_in_demo :
  model_invocations DemoChat.Args
    (Graph.events (snd (DemoChat.run DemoChat.configurable))) <= 2.
Proof.
  exact (proj1 (single_round_of_tool_calls DemoChat.Args DemoChat.World
                  DemoChat.model DemoChat.transport DemoChat.discover []
                  DemoChat.chat_instructions "2025-01-01"
                  DemoChat.question DemoChat.configurable DemoChat.start)).
Defined.

(** The demo turn: three tool messages in request order, tagged
    [call_1], [call_2] and, for the call without an id,
    [call_run_power_flow]; the unknown tool is answered without a transport
    call; the second response's request for a further tool is dropped. *)
Example demo_turn :
  fst (DemoChat.run DemoChat.configurable)
  = Ok [Graph.AIMessage "The power flow converged." []]
  /\ tool_invocations DemoChat.Args
       (Graph.events (snd (DemoChat.run DemoChat.configurable)))
     = [ Graph.EvTool (Graph.mkTool "load_network"
                         "Load a pandapower network from a file.")
           [("file_path", "grid.json")];
         Graph.EvTool (Graph.mkTool "run_power_flow"
                         "Run power flow analysis on the current network.")
           [] ]
  /\ List.map (DemoChat.is_tool_message)
       (follow_up DemoChat.Args DemoChat.World DemoChat.transport
          DemoChat.discover [] DemoChat.chat_instructions "2025-01-01"
          DemoChat.question DemoChat.configurable
          (Graph.mkResponse "" DemoChat.first_calls) Panda.initial_session)
     = [false; false; false; true; true; true]
  /\ List.skipn 3
       (follow_up DemoChat.Args DemoChat.World DemoChat.transport
          DemoChat.discover [] DemoChat.chat_instructions "2025-01-01"
          DemoChat.question DemoChat.configurable
          (Graph.mkResponse "" DemoChat.first_calls) Panda.initial_session)
     = [ Graph.ToolMessage "Network loaded successfully from grid.json" "call_1";
         Graph.ToolMessage "Tool 'lookup_weather' not found" "call_2";
         Graph.ToolMessage "Power flow calculation completed successfully"
           "call_run_power_flow" ].
Proof. vm_compute. repeat split. Qed.

(** ** Further behaviour of the tool server *)

Section PandaBehaviour.

Import Panda.

Variable from_json : string -> Exn + Net.
Variable from_pickle : string -> Exn + Net.
Variable runpp : option PFParams -> Net -> Net * option Exn.

Local Abbreviation load_network := (Panda.load_network from_json from_pickle).
Local Abbreviation run_power_flow := (Panda.run_power_flow runpp).
Local Abbreviation run_contingency_analysis := (Panda.run_contingency_analysis runpp).
Local Abbreviation load_and_run_power_flow :=
  (Panda.load_and_run_power_flow from_json from_pickle runpp).
Local Abbreviation reading := (deserialize from_json from_pickle).

(** The [info] dictionary of [get_network_info] for a network. *)
Definition dump_of (net : Net) : NetworkDump :=
  {| d_buses := length (bus net);
     d_lines := length (line net);
     d_trafos := length (trafo net);
     d_generators := length (gen net);
     d_loads := length (load net);
     d_switches := length (switch net);
     bus_data := bus net;
     line_data := line net;
     trafo_data := trafo net |}.

Lemma get_network_info_run (s : Session) (r : ref) (net : Net) :
  loaded s r net ->
  get_network_info s =
  ({| status := success;
      message := "Network information retrieved successfully";
      payload := InfoPayload (dump_of net) |}, s).
Proof.
  intros [Hcur Hr].
  unfold get_network_info, tool, bind, _get_network, deref.
  rewrite Hcur, Hr. reflexivity.
Qed.

(** X1: Loading a file the reader accepts and then asking for the network
    information reports the tables of the network that was read; the three
    counts are the ones [load_network] itself returned. *)
Theorem info_after_load_matches_the_file (file_path : string) (s : Session)
    (net : Net) :
  reading file_path = Some (inr net) ->
  payload (fst (load_network file_path s))
  = NetworkInfoPayload
      {| buses := length (bus net); lines := length (line net);
         trafos := length (trafo net) |}
  /\ fst (get_network_info (snd (load_network file_path s)))
     = {| status := success;
          message := "Network information retrieved successfully";
          payload := InfoPayload (dump_of net) |}
  /\ d_buses (dump_of net) = length (bus net)
  /\ d_lines (dump_of net) = length (line net)
  /\ d_trafos (dump_of net) = length (trafo net).
Proof.
  intros Hread. rewrite load_network_run, Hread. cbn [fst snd].
  split; [reflexivity | ]. split; [ | repeat split].
  erewrite get_network_info_run; [reflexivity | ].
  split; [reflexivity | apply lookup_fresh].
Qed.

(** X2: [get_network_info] only reads: the session after it is the session
    before it, whether a network is loaded or not. *)
Theorem get_network_info_is_read_only (s : Session) :
  snd (get_network_info s) = s.
Proof.
  unfold get_network_info. rewrite tool_state.
  unfold bind, _get_network, deref.
  destruct (_current_net s) as [r | ]; [ | reflexivity].
  destruct (heap s !! r); reflexivity.
Qed.

(** X3: [run_power_flow] works on the session's network itself: after the
    call the global still refers to the same object, that object is what
    the solver left behind (also when the solver raised), no other object
    has changed, and the log has gained the one solve with the caller's
    parameters. *)
Theorem run_power_flow_solves_in_place (params : PFParams) (s : Session)
    (r : ref) (net : Net) :
  loaded s r net ->
  loaded (snd (run_power_flow params s)) r (fst (runpp (Some params) net))
  /\ (forall r', r' <> r ->
        heap (snd (run_power_flow params s)) !! r' = heap s !! r')
  /\ length (heap (snd (run_power_flow params s))) = length (heap s)
  /\ log (snd (run_power_flow params s)) = log s ++ [EvRunpp r (Some params)].
Proof.
  intros Hloaded. rewrite (run_power_flow_run runpp params s r net Hloaded).
  destruct Hloaded as [Hcur Hr]. cbn [snd heap log _current_net].
  split; [split; cbn | split; [ | split]].
  - exact Hcur.
  - apply list_lookup_insert_eq. eapply lookup_lt_Some; eassumption.
  - intros r' Hne. apply list_lookup_insert_ne. congruence.
  - apply length_insert.
  - reflexivity.
Qed.

(** X4: Two loads in a row: the network of the second file is the current
    one, whatever the first one was. *)
Theorem last_load_wins (first second : string) (s : Session) (net1 net2 : Net) :
  reading first = Some (inr net1) ->
  reading second = Some (inr net2) ->
  loaded (snd (load_network second (snd (load_network first s))))
         (S (length (heap s))) net2
  /\ heap (snd (load_network second (snd (load_network first s))))
     = heap s ++ [net1; net2].
Proof.
  intros H1 H2. rewrite !load_network_run, H1. cbn [snd].
  rewrite H2. cbn [snd heap].
  assert (Hlen : length (heap s ++ [net1]) = S (length (heap s)))
    by (rewrite length_app; cbn; lia).
  split; [split; cbn [_current_net heap] | ].
  - now rewrite Hlen.
  - rewrite <- Hlen. apply lookup_fresh.
  - now rewrite <- app_assoc.
Qed.

(** X5: [load_and_run_power_flow] rejects an extension that is neither [.json]
    nor [.p] the way [load_network] does: the unsupported-format error, and
    a session in which nothing was read, solved or replaced. *)
Theorem load_and_run_rejects_unsupported_extension (file_path : string)
    (params : PFParams) (s : Session) :
  endswith file_path ".json" = false ->
  endswith file_path ".p" = false ->
  load_and_run_power_flow file_path params s
  = (error_result unsupported_msg, s).
Proof.
  intros Hjson Hp. rewrite load_and_run_power_flow_run.
  unfold deserialize. rewrite Hjson, Hp. reflexivity.
Qed.

(** X6: [load_and_run_power_flow] is not all-or-nothing: when the file was
    read and the solver then raised, the call returns an error-status
    result, and yet the network just read has replaced the current one, in
    the state the solver left it. *)
Theorem load_and_run_keeps_the_new_network_after_a_failed_solve
    (file_path : string) (params : PFParams) (s : Session) (net : Net) (e : Exn) :
  reading file_path = Some (inr net) ->
  snd (runpp (Some params) net) = Some e ->
  status (fst (load_and_run_power_flow file_path params s)) = error
  /\ loaded (snd (load_and_run_power_flow file_path params s))
            (length (heap s)) (fst (runpp (Some params) net))
  /\ heap (snd (load_and_run_power_flow file_path params s))
     = heap s ++ [fst (runpp (Some params) net)].
Proof.
  intros Hread Hraise. rewrite load_and_run_power_flow_run, Hread, Hraise.
  cbn [fst snd heap]. split; [apply load_and_run_error_status | ].
  split; [ | reflexivity]. split; [reflexivity | apply lookup_fresh].
Qed.

(** X7: The handler of [load_and_run_power_flow] goes by the class of the
    exception, not by the step that raised it: a [FileNotFoundError] out of
    the solver, after the file has been read, is reported as the file not
    being found, and a [ValueError] out of the solver with its bare text. *)
Theorem load_and_run_reports_solver_errors_by_class
    (file_path : string) (params : PFParams) (s : Session) (net : Net) (e : Exn) :
  reading file_path = Some (inr net) ->
  snd (runpp (Some params) net) = Some e ->
  (exn_class e = FileNotFoundError ->
     fst (load_and_run_power_flow file_path params s)
     = error_result ("File not found: " +:+ file_path))
  /\ (exn_class e = ValueError ->
        fst (load_and_run_power_flow file_path params s)
        = error_result (exn_str e)).
Proof.
  intros Hread Hraise. rewrite load_and_run_power_flow_run, Hread, Hraise.
  cbn [fst]. unfold load_and_run_error.
  split; intros ->; reflexivity.
Qed.

(** X8: [create_empty_network]: when pandapower returns the empty network it
    becomes the current one, as a new object beside the old ones, and the
    counts returned are its counts; when pandapower raises, the error result
    is returned and the session, a loaded network included, stays as it
    was. *)
Theorem create_empty_network_replaces_or_keeps (created : Exn + Net)
    (s : Session) :
  (forall net,
     created = inr net ->
     create_empty_network created s
     = ({| status := success;
           message := "Empty network created successfully";
           payload := NetworkInfoPayload (network_info_of net) |},
        {| heap := heap s ++ [net];
           _current_net := Some (length (heap s));
           log := log s |})
     /\ loaded (snd (create_empty_network created s)) (length (heap s)) net)
  /\ (forall e,
        created = inl e ->
        create_empty_network created s
        = (error_result ("Failed to create empty network: " +:+ exn_str e), s)).
Proof.
  split.
  - intros net ->.
    assert (Hrun : create_empty_network (inr net) s
                   = ({| status := success;
                         message := "Empty network created successfully";
                         payload := NetworkInfoPayload (network_info_of net) |},
                      {| heap := heap s ++ [net];
                         _current_net := Some (length (heap s));
                         log := log s |})).
    { unfold create_empty_network, tool, bind, of_sum, ret, alloc,
        set_current_net, current_net_object, deref. cbn.
      rewrite lookup_fresh. reflexivity. }
    rewrite Hrun. split; [reflexivity | ].
    split; [reflexivity | apply lookup_fresh].
  - intros e ->. reflexivity.
Qed.

(** *** The sweep, state included *)

(** The network a re-solve leaves in its copy. *)
Definition solved_copy (net : Net) (c : string * Z) : Net :=
  fst (runpp None (without_element net c)).

(** The solver calls of a sweep that starts with [n] objects in the heap
    and has [k] cases: one per copy, on consecutive new references, with
    pandapower's default arguments. *)
Definition sweep_calls (n k : nat) : list Event :=
  List.map (fun r => EvRunpp r None) (seq n k).

Lemma sweep_indices_exact (orig_net : ref) (element_type : string) (net : Net)
    (t : Table) :
  get_table net element_type = Some t ->
  forall (idxs : list Z) (results : list ContingencyOutcome) (s : Session),
    heap s !! orig_net = Some net ->
    sweep_indices runpp orig_net element_type idxs results s =
    (Ok (results
         ++ List.map (fun idx => outcome_of runpp net (element_type, idx)) idxs),
     {| heap := heap s
                ++ List.map (fun idx => solved_copy net (element_type, idx)) idxs;
        _current_net := _current_net s;
        log := log s ++ sweep_calls (length (heap s)) (length idxs) |}).
Proof.
  intros Ht. induction idxs as [ | idx rest IH]; intros results s Ho.
  - cbn. unfold ret, sweep_calls. cbn. rewrite !app_nil_r.
    destruct s; reflexivity.
  - cbn [sweep_indices]. unfold bind.
    rewrite (contingency_case_run runpp _ _ idx s net t Ho Ht).
    rewrite IH by (cbn; now apply lookup_app_l_Some).
    cbn [heap log _current_net]. unfold sweep_calls, solved_copy.
    rewrite length_app. cbn [length List.map seq].
    rewrite Nat.add_1_r, <- !app_assoc. reflexivity.
Qed.

Lemma sweep_elements_exact (r orig_net : ref) (net : Net)
    (element_types : list string) :
  Forall (fun element_type => is_Some (get_table net element_type))
         element_types ->
  forall (results : list ContingencyOutcome) (s : Session),
    heap s !! r = Some net ->
    heap s !! orig_net = Some net ->
    sweep_elements runpp r orig_net element_types results s =
    (Ok (results
         ++ List.map (outcome_of runpp net)
              (contingency_cases net element_types)),
     {| heap := heap s
                ++ List.map (solved_copy net)
                     (contingency_cases net element_types);
        _current_net := _current_net s;
        log := log s
               ++ sweep_calls (length (heap s))
                    (length (contingency_cases net element_types)) |}).
Proof.
  induction 1 as [ | et rest [t Ht] _ IH]; intros results s Hr Ho.
  - cbn. unfold ret, sweep_calls. cbn. rewrite !app_nil_r.
    destruct s; reflexivity.
  - cbn [sweep_elements contingency_cases flat_map]. unfold bind.
    rewrite (table_index_run r et s net t Hr Ht).
    rewrite (sweep_indices_exact orig_net et net t Ht (index t) results s Ho).
    rewrite IH by (cbn; now apply lookup_app_l_Some).
    cbn [heap log _current_net]. rewrite Ht.
    fold (contingency_cases net rest).
    rewrite !List.map_app, !List.map_map, !length_app, !length_map.
    unfold sweep_calls. rewrite seq_app, List.map_app, <- !app_assoc.
    reflexivity.
Qed.

Lemma run_contingency_analysis_exact (s : Session) (r : ref) (net : Net)
    (contingency_type : string) (elements : option (list string)) :
  loaded s r net ->
  Forall (fun element_type => is_Some (get_table net element_type))
         (requested elements) ->
  run_contingency_analysis contingency_type elements s =
  ({| status := success;
      message := "Contingency analysis completed";
      payload := ContingencyPayload
                   (List.map (outcome_of runpp net)
                      (contingency_cases net (requested elements))) |},
   {| heap := (heap s ++ [net])
              ++ List.map (solved_copy net)
                   (contingency_cases net (requested elements));
      _current_net := _current_net s;
      log := log s
             ++ sweep_calls (S (length (heap s)))
                  (length (contingency_cases net (requested elements))) |}).
Proof.
  intros [Hcur Hr] Hvalid.
  unfold Panda.run_contingency_analysis, tool, bind, _get_network.
  rewrite Hcur, (deepcopy_run r s net Hr).
  fold (requested elements).
  rewrite (sweep_elements_exact r (length (heap s)) net (requested elements)
             Hvalid).
  - cbn [heap log _current_net app]. rewrite length_app. cbn [length].
    rewrite Nat.add_1_r, Hcur. reflexivity.
  - cbn. now apply lookup_app_l_Some.
  - cbn. apply lookup_fresh.
Qed.

(** X9: The sweep runs the solver exactly once per element, each time on a
    copy of its own made for that element and with pandapower's default
    arguments, never on the session's network; when it returns, the heap
    holds, after the objects that were there, the reference copy and then
    the solved copies in sweep order. *)
Theorem contingency_sweep_solves_each_copy_once (s : Session) (r : ref)
    (net : Net) (contingency_type : string) (elements : option (list string)) :
  loaded s r net ->
  Forall (fun element_type => is_Some (get_table net element_type))
         (requested elements) ->
  log (snd (run_contingency_analysis contingency_type elements s))
  = log s
    ++ List.map (fun r' => EvRunpp r' None)
         (seq (S (length (heap s)))
              (length (contingency_cases net (requested elements))))
  /\ heap (snd (run_contingency_analysis contingency_type elements s))
     = (heap s ++ [net])
       ++ List.map (fun c => fst (runpp None (without_element net c)))
            (contingency_cases net (requested elements)).
Proof.
  intros Hloaded Hvalid.
  rewrite (run_contingency_analysis_exact s r net _ _ Hloaded Hvalid).
  split; reflexivity.
Qed.

(** X10: A network without lines and transformers: the default sweep succeeds
    with an empty list of outcomes and without a solver call; the only
    trace it leaves is the reference copy. *)
Theorem contingency_sweep_of_nothing (s : Session) (r : ref) (net : Net)
    (contingency_type : string) :
  loaded s r net ->
  line net = [] ->
  trafo net = [] ->
  run_contingency_analysis contingency_type None s
  = ({| status := success;
        message := "Contingency analysis completed";
        payload := ContingencyPayload [] |},
     {| heap := heap s ++ [net];
        _current_net := _current_net s;
        log := log s |}).
Proof.
  intros Hloaded Hline Htrafo.
  rewrite (run_contingency_analysis_exact s r net _ None Hloaded
             (default_request_valid net)).
  unfold requested, contingency_cases. cbn [flat_map get_table String.eqb].
  cbn. rewrite Hline, Htrafo. cbn. unfold sweep_calls. cbn.
  now rewrite !app_nil_r.
Qed.

Lemma sweep_elements_unknown_type (r orig_net : ref) (net : Net)
    (element_types : list string) :
  Exists (fun element_type => get_table net element_type = None)
         element_types ->
  forall (results : list ContingencyOutcome) (s : Session),
    heap s !! r = Some net ->
    heap s !! orig_net = Some net ->
    exists e s',
      sweep_elements runpp r orig_net element_types results s = (Raise e, s')
      /\ exn_class e = KeyError.
Proof.
  induction element_types as [ | et rest IH]; intros Hbad results s Hr Ho.
  - inversion Hbad.
  - cbn [sweep_elements]. unfold bind.
    destruct (get_table net et) as [t | ] eqn:Ht.
    + rewrite (table_index_run r et s net t Hr Ht).
      destruct (sweep_indices_run runpp orig_net et net t (index t) Ht
                  results s Ho) as [s1 [Hrun Hext]].
      rewrite Hrun.
      apply IH.
      * inversion Hbad as [x l Hx | x l Hx]; subst; [congruence | exact Hx].
      * eapply extends_lookup; eassumption.
      * eapply extends_lookup; eassumption.
    + unfold table_index, bind, deref. rewrite Hr, Ht. cbn. eauto.
Qed.

(** X11: One requested name that is no table of the network fails the whole
    call: the result has error status and carries no outcomes, also not
    those of the types swept before the bad name was reached. *)
Theorem contingency_sweep_fails_on_an_unknown_type (s : Session) (r : ref)
    (net : Net) (contingency_type : string) (elements : option (list string)) :
  loaded s r net ->
  Exists (fun element_type => get_table net element_type = None)
         (requested elements) ->
  status (fst (run_contingency_analysis contingency_type elements s)) = error
  /\ payload (fst (run_contingency_analysis contingency_type elements s))
     = NoPayload.
Proof.
  intros [Hcur Hr] Hbad.
  unfold Panda.run_contingency_analysis, tool, bind, _get_network.
  rewrite Hcur, (deepcopy_run r s net Hr).
  fold (requested elements).
  destruct (sweep_elements_unknown_type r (length (heap s)) net
              (requested elements) Hbad []
              {| heap := heap s ++ [net]; _current_net := _current_net s;
                 log := log s |})
    as [e [s' [Hrun Hclass]]].
  - cbn. now apply lookup_app_l_Some.
  - cbn. apply lookup_fresh.
  - rewrite Hrun. cbn [fst]. rewrite Hclass. split; reflexivity.
Qed.

End PandaBehaviour.

(** ** Further behaviour of the orchestration node *)

Section GraphBehaviour.

Import Graph.

Variable Args : Type.
Variable World : Type.
Variable model :
  list Tool -> list (Message Args) -> World -> (Exn + Response Args) * World.
Variable transport : Tool -> Args -> World -> (Exn + string) * World.
Variable discover : Exn + list Tool.
Variable empty_args : Args.
Variable chat_instructions : string -> string.
Variable get_current_date : string.

Local Abbreviation State := (NodeState Args World).
Local Abbreviation chat_node :=
  (Graph.chat_node Args World model transport discover empty_args
     chat_instructions get_current_date).
Local Abbreviation tools_of := (bound_tools discover).
Local Abbreviation first_messages :=
  (first_pass Args discover chat_instructions get_current_date).
Local Abbreviation second_messages :=
  (follow_up Args World transport discover empty_args chat_instructions
     get_current_date).
Local Abbreviation calls_made := (dispatched Args empty_args).
Local Abbreviation world_after_calls := (round_world Args World transport empty_args).
Local Abbreviation entries_of := (round_entries Args World transport empty_args).
Local Abbreviation chat_node_steps :=
  (chat_node_run Args World model transport discover empty_args
     chat_instructions get_current_date).

Lemma lookup_List_map {A B : Type} (f : A -> B) (l : list A) (i : nat) :
  List.map f l !! i = f <$> (l !! i).
Proof. exact (list_lookup_fmap f l i). Qed.

Lemma calls_made_without_tools (calls : list (ToolCall Args)) :
  calls_made [] calls = [].
Proof. induction calls as [ | c rest IH]; [reflexivity | exact IH]. Qed.

Lemma tools_of_off (configurable : Configuration) :
  enable_mcp configurable = false \/ (exists e, discover = inl e) ->
  tools_of configurable = [].
Proof.
  unfold bound_tools, get_mcp_tools.
  intros [Hoff | [e He]].
  - now rewrite Hoff.
  - rewrite He. destruct (enable_mcp configurable); reflexivity.
Qed.

(** X12: With MCP switched off, or when tool discovery fails, the turn is
    model-only: no tool is bound, the system prompt is the plain
    instructions without the tool guidance, and the transport is not
    called, whatever tool calls the model asks for. *)
Theorem model_only_without_tools (state_messages : list (Message Args))
    (configurable : Configuration) (s : State) :
  enable_mcp configurable = false \/ (exists e, discover = inl e) ->
  tools_of configurable = []
  /\ first_messages state_messages configurable
     = SystemMessage (chat_instructions get_current_date) :: state_messages
  /\ tool_invocations Args
       (events (snd (chat_node state_messages configurable s)))
     = tool_invocations Args (events s).
Proof.
  intros Hoff. pose proof (tools_of_off configurable Hoff) as Hnone.
  split; [exact Hnone | ]. split.
  - unfold first_pass. now rewrite Hnone.
  - pose proof (chat_node_steps state_messages configurable s) as Hrun.
    cbv zeta in Hrun. rewrite Hrun, Hnone.
    destruct (fst (model [] _ (world s))) as [e | response].
    + cbn [snd events]. rewrite tool_invocations_app. apply app_nil_r.
    + destruct (tool_calls response) as [ | c rest].
      * cbn [snd events]. rewrite tool_invocations_app. apply app_nil_r.
      * cbn [snd events]. rewrite calls_made_without_tools.
        rewrite !tool_invocations_app. cbn. now rewrite !app_nil_r.
Qed.

Lemma entries_of_lookup (tools : list Tool) (calls : list (ToolCall Args)) :
  forall (w : World) (i : nat) (tool_call : ToolCall Args),
    calls !! i = Some tool_call ->
    entries_of tools calls w !! i
    = Some (entry_in Args World transport empty_args tools tool_call
              (world_after_calls tools (take i calls) w)).
Proof.
  induction calls as [ | c rest IH]; intros w i tool_call Hi.
  - discriminate.
  - destruct i as [ | i]; cbn in *.
    + now injection Hi as ->.
    + now apply IH.
Qed.

(** X13: The tool calls of a response run one after the other in request
    order: the [i]-th tool message of the second pass reports the [i]-th
    call as run in the world the calls before it left behind.  Its text is
    the tool's result, or the failure text with the exception's message
    when the transport raised; either way the later calls still run, and
    the second model invocation sees the world after the last call. *)
Theorem tool_calls_run_in_sequence (state_messages : list (Message Args))
    (configurable : Configuration) (s : State) (response : Response Args)
    (w1 : World) :
  model (tools_of configurable) (first_messages state_messages configurable)
        (world s) = (inr response, w1) ->
  tool_calls response <> [] ->
  world (snd (chat_node state_messages configurable s))
  = snd (model (tools_of configurable)
           (second_messages state_messages configurable response w1)
           (world_after_calls (tools_of configurable) (tool_calls response) w1))
  /\ forall i tool_call tool,
       tool_calls response !! i = Some tool_call ->
       matching_tool (tools_of configurable) tool_call = Some tool ->
       let w := world_after_calls (tools_of configurable)
                  (take i (tool_calls response)) w1 in
       let args := args_of Args empty_args tool_call in
       second_messages state_messages configurable response w1
         !! (length (first_messages state_messages configurable) + 1 + i)
       = Some (ToolMessage
                 match fst (transport tool args w) with
                 | inr result => result
                 | inl e => failed_msg tool_call e
                 end
                 (call_id tool_call)).
Proof.
  intros Hmodel Hcalls.
  pose proof (chat_node_steps state_messages configurable s) as Hrun.
  cbv zeta in Hrun. rewrite Hmodel in Hrun. cbn [fst snd] in Hrun.
  destruct (tool_calls response) as [ | c rest] eqn:Hc; [contradiction | ].
  rewrite <- Hc in *. split.
  - rewrite Hrun. reflexivity.
  - intros i tool_call tool Hi Hmatch. cbv zeta. unfold follow_up.
    rewrite lookup_app_r by lia.
    replace (length (first_messages state_messages configurable) + 1 + i
             - length (first_messages state_messages configurable))
      with (S i) by lia.
    cbn [app]. rewrite lookup_cons.
    rewrite lookup_List_map, (entries_of_lookup _ _ w1 i tool_call Hi).
    cbn. unfold entry_in. rewrite Hmatch. reflexivity.
Qed.

Lemma calls_made_targets (tools : list Tool) (calls : list (ToolCall Args))
    (ev : Event Args) :
  In ev (calls_made tools calls) ->
  exists tool_call tool,
    In tool_call calls
    /\ matching_tool tools tool_call = Some tool
    /\ ev = EvTool tool (args_of Args empty_args tool_call).
Proof.
  unfold dispatched. rewrite in_flat_map. intros [c [Hc Hev]].
  destruct (matching_tool tools c) as [tool | ] eqn:Hm; [ | contradiction].
  destruct Hev as [<- | []]. eauto.
Qed.

Lemma matching_tool_sound (tools : list Tool) (tool_call : ToolCall Args)
    (tool : Tool) :
  matching_tool tools tool_call = Some tool ->
  In tool tools /\ name tool = tc_name tool_call.
Proof.
  unfold matching_tool. intros Hfind.
  apply List.find_some in Hfind as [Hin Heq].
  split; [exact Hin | now apply String.eqb_eq].
Qed.

(** X14: A turn only ever calls bound tools, each under the name the model
    asked for and with the arguments of that call: every tool event a turn
    adds to the log is for a call of the first response whose name is the
    name of the tool called. *)
Theorem only_requested_bound_tools_are_called
    (state_messages : list (Message Args)) (configurable : Configuration)
    (s : State) (tool : Tool) (args : Args) :
  In (EvTool tool args)
     (events (snd (chat_node state_messages configurable s))) ->
  In (EvTool tool args) (events s)
  \/ (In tool (tools_of configurable)
      /\ exists response tool_call,
           fst (model (tools_of configurable)
                  (first_messages state_messages configurable) (world s))
           = inr response
           /\ In tool_call (tool_calls response)
           /\ name tool = tc_name tool_call
           /\ args = args_of Args empty_args tool_call).
Proof.
  pose proof (chat_node_steps state_messages configurable s) as Hrun.
  cbv zeta in Hrun. rewrite Hrun.
  destruct (fst (model _ _ (world s))) as [e | response] eqn:Hmodel.
  - cbn [snd events]. rewrite in_app_iff.
    intros [H | [H | []]]; [now left | discriminate].
  - destruct (tool_calls response) as [ | c rest] eqn:Hc.
    + cbn [snd events]. rewrite in_app_iff.
      intros [H | [H | []]]; [now left | discriminate].
    + cbn [snd events]. rewrite <- Hc. rewrite !in_app_iff.
      intros [[[H | [H | []]] | H] | [H | []]];
        [now left | discriminate | | discriminate].
      right.
      apply calls_made_targets in H as [tool_call [t [Hin [Hm Hev]]]].
      injection Hev as -> ->.
      apply matching_tool_sound in Hm as [Hbound Hname].
      split; [exact Hbound | ]. exists response, tool_call. auto.
Qed.

(** X15: A failing model invocation ends the turn with that exception.  When
    it is the first one, nothing else has happened; when it is the second
    one, the tools of the first response have run and what they did to the
    world stays done. *)
Theorem model_failure_ends_the_turn (state_messages : list (Message Args))
    (configurable : Configuration) (s : State) :
  (forall e w1,
     model (tools_of configurable)
           (first_messages state_messages configurable) (world s)
     = (inl e, w1) ->
     chat_node state_messages configurable s
     = (Raise e,
        {| world := w1;
           events := events s
                     ++ [EvModel (tools_of configurable)
                           (first_messages state_messages configurable)] |}))
  /\ (forall response w1 e w3,
        model (tools_of configurable)
              (first_messages state_messages configurable) (world s)
        = (inr response, w1) ->
        tool_calls response <> [] ->
        model (tools_of configurable)
              (second_messages state_messages configurable response w1)
              (world_after_calls (tools_of configurable)
                 (tool_calls response) w1)
        = (inl e, w3) ->
        fst (chat_node state_messages configurable s) = Raise e
        /\ world (snd (chat_node state_messages configurable s)) = w3
        /\ tool_invocations Args
             (events (snd (chat_node state_messages configurable s)))
           = tool_invocations Args (events s)
             ++ calls_made (tools_of configurable) (tool_calls response)).
Proof.
  pose proof (chat_node_steps state_messages configurable s) as Hrun.
  cbv zeta in Hrun. split.
  - intros e w1 Hmodel. rewrite Hmodel in Hrun. exact Hrun.
  - intros response w1 e w3 Hmodel Hcalls Hsecond.
    rewrite Hmodel in Hrun. cbn [fst snd] in Hrun.
    destruct (tool_calls response) as [ | c rest] eqn:Hc; [contradiction | ].
    rewrite <- Hc in *. rewrite Hsecond in Hrun. rewrite Hrun.
    cbn [fst snd world events]. split; [reflexivity | ].
    split; [reflexivity | ].
    rewrite !tool_invocations_app, dispatched_all_tool. cbn.
    now rewrite !app_nil_r.
Qed.

(** X16: Whenever a turn returns, it returns exactly one assistant
    message, which carries the content of the last model response and no
    tool calls.  Without tool calls in the first response that is the
    first response, and the model was invoked once.  With tool calls, the
    second pass was given the first-pass messages, the first response with
    its tool calls, and one tool message per call, and the last response is
    the answer to that; neither the response with its tool calls nor any
    of the tool messages is among what is returned. *)
Theorem turn_returns_one_plain_assistant_message
    (state_messages : list (Message Args)) (configurable : Configuration)
    (s : State) (returned : list (Message Args)) :
  fst (chat_node state_messages configurable s) = Ok returned ->
  exists last : Response Args,
    returned = [AIMessage (content last) []]
    /\ ((fst (model (tools_of configurable)
                (first_messages state_messages configurable) (world s))
         = inr last
         /\ tool_calls last = []
         /\ events (snd (chat_node state_messages configurable s))
            = events s
              ++ [EvModel (tools_of configurable)
                    (first_messages state_messages configurable)])
        \/ exists (response : Response Args)
                  (tool_messages : list (Message Args)),
             fst (model (tools_of configurable)
                    (first_messages state_messages configurable) (world s))
             = inr response
             /\ tool_calls response <> []
             /\ tool_messages
                = List.map tool_message
                    (entries_of (tools_of configurable) (tool_calls response)
                       (snd (model (tools_of configurable)
                               (first_messages state_messages configurable)
                               (world s))))
             /\ length tool_messages = length (tool_calls response)
             /\ (forall m, In m tool_messages ->
                           exists text tag, m = ToolMessage text tag)
             /\ fst (model (tools_of configurable)
                       (first_messages state_messages configurable
                        ++ [AIMessage (content response) (tool_calls response)]
                        ++ tool_messages)
                       (world_after_calls (tools_of configurable)
                          (tool_calls response)
                          (snd (model (tools_of configurable)
                                  (first_messages state_messages configurable)
                                  (world s)))))
                = inr last
             /\ In (EvModel (tools_of configurable)
                      (first_messages state_messages configurable
                       ++ [AIMessage (content response) (tool_calls response)]
                       ++ tool_messages))
                   (events (snd (chat_node state_messages configurable s)))
             /\ ~ In (AIMessage (content response) (tool_calls response))
                     returned
             /\ forall m, In m tool_messages -> ~ In m returned).
Proof.
  pose proof (chat_node_steps state_messages configurable s) as Hrun.
  cbv zeta in Hrun. rewrite Hrun.
  destruct (fst (model _ _ (world s))) as [e | response] eqn:Hfirst;
    [discriminate | ].
  destruct (tool_calls response) as [ | c rest] eqn:Hc.
  - cbn [fst snd events]. intros Hret. injection Hret as <-.
    exists response. split; [reflexivity | ]. left. auto.
  - rewrite <- Hc in *.
    assert (Hcalls : tool_calls response <> []) by (rewrite Hc; discriminate).
    cbn [fst snd events].
    destruct (fst (model _ (second_messages _ _ _ _) _)) as [e | final]
      eqn:Hsecond; [discriminate | ].
    intros Hret. injection Hret as <-.
    exists final. split; [reflexivity | ]. right.
    exists response.
    exists (List.map tool_message
              (entries_of (tools_of configurable) (tool_calls response)
                 (snd (model (tools_of configurable)
                         (first_messages state_messages configurable)
                         (world s))))).
    assert (Hshape : forall m : Message Args,
               In m (List.map (@tool_message Args)
                       (entries_of (tools_of configurable)
                          (tool_calls response)
                          (snd (model (tools_of configurable)
                                  (first_messages state_messages configurable)
                                  (world s))))) ->
               exists text tag, m = ToolMessage text tag).
    { intros m Hm. apply List.in_map_iff in Hm as [entry [<- _]].
      eexists _, _. reflexivity. }
    split; [reflexivity | ]. split; [exact Hcalls | ].
    split; [reflexivity | ].
    split; [now rewrite length_map, round_entries_length | ].
    split; [exact Hshape | ].
    split; [exact Hsecond | ].
    split; [apply in_or_app; right; now left | ].
    split.
    + intros [Heq | []]. injection Heq as _ Hnil. symmetry in Hnil.
      contradiction.
    + intros m Hm [Heq | []]. apply Hshape in Hm as [text [tag ->]].
      discriminate.
Qed.

End GraphBehaviour.

(** ** Properties of the configuration *)

Section ConfigProperties.

Import Config.

Variable Built : Type.
Variable cls : list (string * PyValue) -> Exn + Built.

Lemma kwarg_of_fields (f : string -> PyValue) (names : list string)
    (name : string) :
  kwarg (List.filter (fun kv => negb (is_none (snd kv)))
           (List.map (fun n => (n, f n)) names)) name
  = if List.existsb (String.eqb name) names
    then (if is_none (f name) then None else Some (f name))
    else None.
Proof.
  induction names as [ | n rest IH]; [reflexivity | ].
  cbn [List.map List.filter List.existsb snd].
  rewrite (String.eqb_sym name n).
  destruct (String.eqb n name) eqn:Hn.
  - apply String.eqb_eq in Hn as ->. cbn [orb].
    destruct (is_none (f name)) eqn:Hnone; cbn [negb].
    + rewrite IH, ?Hnone.
      destruct (List.existsb (String.eqb name) rest); reflexivity.
    + cbn [kwarg]. now rewrite String.eqb_refl.
  - cbn [orb]. destruct (is_none (f n)); cbn [negb kwarg]; [exact IH | ].
    rewrite Hn. exact IH.
Qed.

Lemma is_field (name : string) :
  In name model_fields -> List.existsb (String.eqb name) model_fields = true.
Proof.
  intros Hin. apply List.existsb_exists. exists name.
  split; [exact Hin | apply String.eqb_refl].
Qed.

(** X17: The keyword argument [from_runnable_config] passes for a field: the
    environment variable named after the field in upper case when it is
    set, whatever the configurable says; otherwise the configurable's value
    when it has one that is not [None]; otherwise nothing, so that the
    field's default applies. *)
Theorem environment_overrides_configurable (environ : gmap string string)
    (config : option RunnableConfig) (name : string) :
  In name model_fields ->
  from_runnable_config Built cls environ config
  = cls (values environ (configurable_of config))
  /\ (forall v,
        environ !! upper name = Some v ->
        kwarg (values environ (configurable_of config)) name = Some (PyStr v))
  /\ (forall v,
        environ !! upper name = None ->
        configurable_of config !! name = Some v ->
        v <> PyNone ->
        kwarg (values environ (configurable_of config)) name = Some v)
  /\ (environ !! upper name = None ->
      configurable_of config !! name = None
      \/ configurable_of config !! name = Some PyNone ->
      kwarg (values environ (configurable_of config)) name = None).
Proof.
  intros Hfield. split; [reflexivity | ].
  unfold values, raw_values.
  rewrite (kwarg_of_fields
             (raw_value environ (configurable_of config)) model_fields name).
  rewrite (is_field name Hfield). unfold raw_value, dict_get.
  split; [ | split].
  - intros v ->. reflexivity.
  - intros v -> -> Hv. destruct v; try reflexivity. contradiction.
  - intros -> [-> | ->]; reflexivity.
Qed.

(** X18: Only fields reach the constructor, each at most once and never with
    [None]: other keys of the configurable and other environment variables
    are not looked at. *)
Theorem only_fields_are_passed (environ : gmap string string)
    (config : option RunnableConfig) :
  (forall k v,
     In (k, v) (values environ (configurable_of config)) ->
     In k model_fields /\ v <> PyNone)
  /\ NoDup (List.map fst (values environ (configurable_of config))).
Proof.
  unfold values, raw_values. split.
  - intros k v Hin. apply List.filter_In in Hin as [Hin Hv].
    apply List.in_map_iff in Hin as [n [Heq Hn]]. injection Heq as <- <-.
    split; [exact Hn | ]. cbn in Hv. intros Hnone. rewrite Hnone in Hv.
    discriminate.
  - set (f := raw_value environ (configurable_of config)).
    assert (Hsub : forall names,
               NoDup names ->
               NoDup (List.map fst
                        (List.filter (fun kv => negb (is_none (snd kv)))
                           (List.map (fun n => (n, f n)) names)))).
    { induction names as [ | n rest IH]; intros Hnd; [constructor | ].
      apply NoDup_cons in Hnd as [Hnot Hrest].
      cbn [List.map List.filter snd].
      destruct (negb (is_none (f n))); [ | now apply IH].
      cbn [List.map fst]. apply NoDup_cons_2; [ | now apply IH].
      intros Hin. apply Hnot.
      apply list_elem_of_In, List.in_map_iff in Hin as [[k v] [Hk Hin]].
      cbn in Hk. subst k.
      apply List.filter_In in Hin as [Hin _].
      apply List.in_map_iff in Hin as [m [Heq Hm]]. injection Heq as -> _.
      now apply list_elem_of_In. }
    apply Hsub. apply (bool_decide_unpack _). vm_compute. exact I.
Qed.

(** X19: With none of the four variables in the environment and no
    configurable (no config at all, a config without the key, or an empty
    one), the constructor is called without arguments: every field keeps
    its default. *)
Theorem nothing_set_means_defaults (environ : gmap string string) :
  (forall name, In name model_fields -> environ !! upper name = None) ->
  from_runnable_config Built cls environ None = cls []
  /\ from_runnable_config Built cls environ (Some (mkRunnableConfig None))
     = cls []
  /\ from_runnable_config Built cls environ (Some (mkRunnableConfig (Some ∅)))
     = cls [].
Proof.
  intros Hunset.
  assert (Hvalues : values environ ∅ = []).
  { unfold values, raw_values, raw_value, dict_get, model_fields.
    cbn [List.map].
    rewrite !Hunset by (cbn; tauto).
    rewrite !lookup_empty. reflexivity. }
  unfold from_runnable_config, configurable_of. cbn [rc_configurable].
  rewrite Hvalues. repeat split.
Qed.

End ConfigProperties.

(** ** Properties of the MCP client *)

Section McpClientProperties.

Import McpClient.

Variable current_dir : string.
Variable get_tools : Client -> Exn + list Graph.Tool.

Local Abbreviation with_cwd := (McpClient.with_cwd current_dir).
Local Abbreviation server_configs_of := (McpClient.server_configs_of current_dir).
Local Abbreviation get_mcp_client := (McpClient.get_mcp_client current_dir).
Local Abbreviation get_mcp_tools :=
  (McpClient.get_mcp_tools current_dir Graph.Tool get_tools).

(** X20: Once a client has been made, every later call returns that client,
    whatever configuration it is given, also one with MCP switched off or
    with other servers: the global is set once per process. *)
Theorem client_is_built_once (mcp_servers : list (string * ServerConfig))
    (client : Client) (enable_mcp' : bool)
    (mcp_servers' : list (string * ServerConfig)) :
  server_configs_of mcp_servers = inr client ->
  get_mcp_client true mcp_servers None = (Ok (Some client), Some client)
  /\ get_mcp_client enable_mcp' mcp_servers'
       (snd (get_mcp_client true mcp_servers None))
     = (Ok (Some client), Some client).
Proof.
  intros Hbuilt. unfold McpClient.get_mcp_client. rewrite Hbuilt.
  split; reflexivity.
Qed.

Lemma with_cwd_spec (server_config config : ServerConfig) :
  with_cwd server_config = inr config ->
  (server_config !! "cwd" = Some PyNone ->
     config = <["cwd" := PyStr current_dir]> server_config)
  /\ (forall v, server_config !! "cwd" = Some v -> v <> PyNone ->
                config = server_config)
  /\ (exists v, config !! "cwd" = Some v /\ v <> PyNone)
  /\ (forall k, k <> "cwd" -> config !! k = server_config !! k).
Proof.
  unfold McpClient.with_cwd.
  destruct (server_config !! "cwd") as [v | ] eqn:Hcwd; [ | discriminate].
  destruct v; intros Heq; injection Heq as <-.
  2-5: split; [intros H; congruence | ];
    (split; [reflexivity | ]); (split; [ | reflexivity]);
    eexists; (split; [exact Hcwd | discriminate]).
  split; [reflexivity | ]. split; [intros v Hv; congruence | ].
  split.
  - exists (PyStr current_dir). split; [apply lookup_insert_eq | discriminate].
  - intros k Hk. now apply lookup_insert_ne.
Qed.

(** X21: The client is made from the configured servers, one for one and under
    the same names; each server's settings are the configured ones, except
    that a working directory of [None] has become the source directory; so
    every server of a client has a working directory. *)
Theorem every_server_gets_a_working_directory
    (mcp_servers : list (string * ServerConfig)) (client : Client) :
  server_configs_of mcp_servers = inr client ->
  List.map fst client = List.map fst mcp_servers
  /\ forall i server_name server_config,
       mcp_servers !! i = Some (server_name, server_config) ->
       exists config,
         client !! i = Some (server_name, config)
         /\ (server_config !! "cwd" = Some PyNone ->
               config = <["cwd" := PyStr current_dir]> server_config)
         /\ (forall v, server_config !! "cwd" = Some v -> v <> PyNone ->
                       config = server_config)
         /\ (exists v, config !! "cwd" = Some v /\ v <> PyNone)
         /\ (forall k, k <> "cwd" -> config !! k = server_config !! k).
Proof.
  revert client.
  induction mcp_servers as [ | [n sc] rest IH]; intros client Hbuilt.
  - injection Hbuilt as <-. split; [reflexivity | ]. intros i ? ? Hi.
    discriminate.
  - cbn [McpClient.server_configs_of] in Hbuilt.
    destruct (with_cwd sc) as [e | config] eqn:Hcwd; [discriminate | ].
    destruct (server_configs_of rest) as [e | configs] eqn:Hrest;
      [discriminate | ].
    injection Hbuilt as <-.
    destruct (IH configs eq_refl) as [Hnames Heach]. split.
    + cbn. now rewrite Hnames.
    + intros [ | i] server_name server_config Hi; cbn in Hi.
      * injection Hi as <- <-. exists config.
        split; [reflexivity | now apply with_cwd_spec].
      * apply (Heach i server_name server_config Hi).
Qed.

Lemma server_configs_of_missing_cwd (mcp_servers : list (string * ServerConfig)) :
  Exists (fun entry => snd entry !! "cwd" = None) mcp_servers ->
  server_configs_of mcp_servers = inl (mkExn KeyError "'cwd'").
Proof.
  induction mcp_servers as [ | [n sc] rest IH]; intros Hbad.
  - inversion Hbad.
  - cbn [McpClient.server_configs_of]. unfold McpClient.with_cwd.
    destruct (sc !! "cwd") as [v | ] eqn:Hcwd; [ | reflexivity].
    assert (Hrest : server_configs_of rest = inl (mkExn KeyError "'cwd'")).
    { apply IH. inversion Hbad as [x l Hx | x l Hx]; subst; [ | exact Hx].
      cbn in Hx. congruence. }
    rewrite Hrest. destruct v; reflexivity.
Qed.

(** X22: A server entry without a ["cwd"] key: [get_mcp_client] raises
    [KeyError] and sets no client, and [get_mcp_tools] turns that into the
    empty tool list, again without a client, so that the next turn tries
    anew. *)
Theorem missing_cwd_means_no_client_and_no_tools
    (mcp_servers : list (string * ServerConfig)) :
  Exists (fun entry => snd entry !! "cwd" = None) mcp_servers ->
  get_mcp_client true mcp_servers None
  = (Raise (mkExn KeyError "'cwd'"), None)
  /\ get_mcp_tools true mcp_servers None = ([], None).
Proof.
  intros Hbad.
  unfold McpClient.get_mcp_tools, McpClient.get_mcp_client, try_except, bind.
  rewrite (server_configs_of_missing_cwd mcp_servers Hbad).
  split; reflexivity.
Qed.

(** X23: When listing the tools fails, [get_mcp_tools] returns the empty list
    and the client stays set: later calls ask the same client again and
    build no new one, whatever servers they are given. *)
Theorem failed_discovery_keeps_the_client
    (mcp_servers mcp_servers' : list (string * ServerConfig))
    (client : Client) (e : Exn) :
  server_configs_of mcp_servers = inr client ->
  get_tools client = inl e ->
  get_mcp_tools true mcp_servers None = ([], Some client)
  /\ get_mcp_tools true mcp_servers' (Some client) = ([], Some client).
Proof.
  intros Hbuilt Hfail.
  unfold McpClient.get_mcp_tools, McpClient.get_mcp_client, try_except, bind,
    of_sum.
  rewrite Hbuilt, Hfail. split; reflexivity.
Qed.

(** What [chat_node] is given as tool discovery, in terms of the client:
    the exception of making the client, or what the client lists. *)
Definition discovery (mcp_servers : list (string * ServerConfig))
    (_mcp_client : option Client) : Exn + list Graph.Tool :=
  match get_mcp_client true mcp_servers _mcp_client with
  | (Raise e, _) => inl e
  | (Ok None, _) => inr []
  | (Ok (Some client), _) => get_tools client
  end.

(** X24: [get_mcp_tools] with the client global returns exactly the tools that
    the node model's [get_mcp_tools] returns for that discovery: nothing
    when MCP is off, nothing when the client cannot be made or cannot list
    its tools, and the client's tools otherwise. *)
Theorem get_mcp_tools_agrees_with_discovery
    (configurable : Graph.Configuration)
    (mcp_servers : list (string * ServerConfig)) (_mcp_client : option Client) :
  fst (get_mcp_tools (Graph.enable_mcp configurable) mcp_servers _mcp_client)
  = Graph.get_mcp_tools (discovery mcp_servers _mcp_client) configurable.
Proof.
  unfold McpClient.get_mcp_tools, Graph.get_mcp_tools, discovery,
    McpClient.get_mcp_client, try_except, bind, of_sum.
  destruct (Graph.enable_mcp configurable); [ | reflexivity]. cbn [negb].
  destruct _mcp_client as [client | ].
  - destruct (get_tools client); reflexivity.
  - destruct (server_configs_of mcp_servers) as [e | client]; [reflexivity | ].
    destruct (get_tools client); reflexivity.
Qed.

End McpClientProperties.

(** The witnesses of the further properties. *)

Lemma info_after_load_matches_the_file_on_grid :
  Panda.payload (fst (Panda.load_network Demo.from_json Demo.from_pickle
                        "grid.json" Panda.initial_session))
  = Panda.NetworkInfoPayload (Panda.mkInfo 2 2 1)
  /\ fst (Panda.get_network_info
            (snd (Panda.load_network Demo.from_json Demo.from_pickle
                    "grid.json" Panda.initial_session)))
     = {| Panda.status := Panda.success;
          Panda.message := "Network information retrieved successfully";
          Panda.payload := Panda.InfoPayload (dump_of Demo.grid) |}.
Proof.
  destruct (info_after_load_matches_the_file Demo.from_json Demo.from_pickle
              "grid.json" Panda.initial_session Demo.grid eq_refl)
    as [Hload [Hinfo _]].
  split; [exact Hload | exact Hinfo].
Defined.

Lemma run_power_flow_solves_in_place_on_grid :
  loaded (snd (Panda.run_power_flow Demo.runpp Panda.default_params
                 Demo.grid_session))
         0 (fst (Demo.runpp (Some Panda.default_params) Demo.grid))
  /\ Panda.log (snd (Panda.run_power_flow Demo.runpp Panda.default_params
                       Demo.grid_session))
     = [Panda.EvFromJson "grid.json";
        Panda.EvRunpp 0 (Some Panda.default_params)].
Proof.
  destruct (run_power_flow_solves_in_place Demo.runpp Panda.default_params
              Demo.grid_session 0 Demo.grid (conj eq_refl eq_refl))
    as [Hloaded [_ [_ Hlog]]].
  split; [exact Hloaded | exact Hlog].
Defined.

Lemma last_load_wins_on_grid_then_weak :
  loaded (snd (Panda.load_network Demo.from_json Demo.from_pickle "weak.json"
                 (snd (Panda.load_network Demo.from_json Demo.from_pickle
                         "grid.json" Panda.initial_session))))
         1 Demo.weak_grid.
Proof.
  exact (proj1 (last_load_wins Demo.from_json Demo.from_pickle
                  "grid.json" "weak.json" Panda.initial_session
                  Demo.grid Demo.weak_grid eq_refl eq_refl)).
Defined.

Lemma load_and_run_rejects_unsupported_extension_on_csv :
  Panda.load_and_run_power_flow Demo.from_json Demo.from_pickle Demo.runpp
    "grid.csv" Panda.default_params Demo.grid_session
  = (Panda.error_result unsupported_msg, Demo.grid_session).
Proof.
  exact (load_and_run_rejects_unsupported_extension Demo.from_json
           Demo.from_pickle Demo.runpp "grid.csv" Panda.default_params
           Demo.grid_session eq_refl eq_refl).
Defined.

Lemma load_and_run_keeps_the_new_network_on_no_bus :
  Panda.status
    (fst (Panda.load_and_run_power_flow Demo.from_json Demo.from_pickle
            Demo.runpp "no_bus.json" Panda.default_params Demo.grid_session))
  = Panda.error
  /\ loaded
       (snd (Panda.load_and_run_power_flow Demo.from_json Demo.from_pickle
               Demo.runpp "no_bus.json" Panda.default_params
               Demo.grid_session))
       1 Demo.no_bus.
Proof.
  destruct (load_and_run_keeps_the_new_network_after_a_failed_solve
              Demo.from_json Demo.from_pickle Demo.runpp "no_bus.json"
              Panda.default_params Demo.grid_session Demo.no_bus
              (mkExn OtherException "no buses") eq_refl eq_refl)
    as [Hstatus [Hloaded _]].
  split; [exact Hstatus | exact Hloaded].
Defined.

Lemma load_and_run_reports_a_missing_library_as_a_missing_file :
  fst (Panda.load_and_run_power_flow Demo.from_json Demo.from_pickle
         DemoMore.runpp_without_library "grid.json" Panda.default_params
         Panda.initial_session)
  = Panda.error_result "File not found: grid.json".
Proof.
  exact (proj1 (load_and_run_reports_solver_errors_by_class
                  Demo.from_json Demo.from_pickle
                  DemoMore.runpp_without_library "grid.json"
                  Panda.default_params Panda.initial_session Demo.grid
                  (mkExn FileNotFoundError
                     "libsolver.so: cannot open shared object file")
                  eq_refl eq_refl) eq_refl).
Defined.

Lemma contingency_sweep_solves_each_copy_once_on_grid :
  Panda.log (snd (Panda.run_contingency_analysis Demo.runpp "N-1" None
                    Demo.grid_session))
  = [Panda.EvFromJson "grid.json"; Panda.EvRunpp 2 None;
     Panda.EvRunpp 3 None; Panda.EvRunpp 4 None].
Proof.
  exact (proj1 (contingency_sweep_solves_each_copy_once Demo.runpp
                  Demo.grid_session 0 Demo.grid "N-1" None
                  (conj eq_refl eq_refl) (default_request_valid Demo.grid))).
Defined.

Lemma contingency_sweep_of_nothing_on_no_bus :
  Panda.run_contingency_analysis Demo.runpp "N-1" None DemoMore.no_bus_session
  = ({| Panda.status := Panda.success;
        Panda.message := "Contingency analysis completed";
        Panda.payload := Panda.ContingencyPayload [] |},
     {| Panda.heap := [Demo.no_bus; Demo.no_bus];
        Panda._current_net := Some 0;
        Panda.log := [Panda.EvFromJson "no_bus.json"] |}).
Proof.
  exact (contingency_sweep_of_nothing Demo.runpp DemoMore.no_bus_session 0
           Demo.no_bus "N-1" (conj eq_refl eq_refl) eq_refl eq_refl).
Defined.

Lemma contingency_sweep_fails_on_cable :
  Panda.status
    (fst (Panda.run_contingency_analysis Demo.runpp "N-1"
            (Some ["line"; "cable"]) Demo.grid_session)) = Panda.error
  /\ Panda.payload
       (fst (Panda.run_contingency_analysis Demo.runpp "N-1"
               (Some ["line"; "cable"]) Demo.grid_session)) = Panda.NoPayload.
Proof.
  apply (contingency_sweep_fails_on_an_unknown_type Demo.runpp
           Demo.grid_session 0 Demo.grid "N-1" (Some ["line"; "cable"])
           (conj eq_refl eq_refl)).
  apply Exists_cons_tl, Exists_cons_hd. reflexivity.
Defined.

Lemma model_only_without_tools_in_demo :
  bound_tools DemoChat.discover DemoChat.without_mcp = []
  /\ tool_invocations DemoChat.Args
       (Graph.events (snd (DemoChat.run DemoChat.without_mcp))) = [].
Proof.
  destruct (model_only_without_tools DemoChat.Args DemoChat.World
              DemoChat.model DemoChat.transport DemoChat.discover []
              DemoChat.chat_instructions "2025-01-01" DemoChat.question
              DemoChat.without_mcp DemoChat.start (or_introl eq_refl))
    as [Hnone [_ Hquiet]].
  split; [exact Hnone | exact Hquiet].
Defined.

Lemma tool_calls_run_in_sequence_in_demo :
  follow_up DemoChat.Args DemoChat.World DemoChat.transport DemoMore.discover
    [] DemoChat.chat_instructions "2025-01-01" DemoChat.question
    DemoChat.configurable (Graph.mkResponse "" DemoChat.first_calls)
    Panda.initial_session !! 4
  = Some (Graph.ToolMessage "Tool 'lookup_weather' failed: connection closed"
            "call_2")
  /\ follow_up DemoChat.Args DemoChat.World DemoChat.transport DemoMore.discover
       [] DemoChat.chat_instructions "2025-01-01" DemoChat.question
       DemoChat.configurable (Graph.mkResponse "" DemoChat.first_calls)
       Panda.initial_session !! 5
     = Some (Graph.ToolMessage "Power flow calculation completed successfully"
               "call_run_power_flow").
Proof.
  pose proof (proj2 (tool_calls_run_in_sequence DemoChat.Args DemoChat.World
                       DemoChat.model DemoChat.transport DemoMore.discover []
                       DemoChat.chat_instructions "2025-01-01"
                       DemoChat.question DemoChat.configurable DemoChat.start
                       (Graph.mkResponse "" DemoChat.first_calls)
                       Panda.initial_session eq_refl ltac:(discriminate)))
    as Hseq.
  split.
  - exact (Hseq 1 (Graph.mkCall "lookup_weather" (Some "call_2") (Some []))
             (Graph.mkTool "lookup_weather" "Look up the weather.")
             eq_refl eq_refl).
  - exact (Hseq 2 (Graph.mkCall "run_power_flow" None None)
             (Graph.mkTool "run_power_flow"
                "Run power flow analysis on the current network.")
             eq_refl eq_refl).
Defined.

Lemma only_requested_bound_tools_are_called_in_demo :
  In (Graph.EvTool (Graph.mkTool "load_network"
                      "Load a pandapower network from a file.")
        [("file_path", "grid.json")])
     (Graph.events DemoChat.start)
  \/ (In (Graph.mkTool "load_network" "Load a pandapower network from a file.")
         (bound_tools DemoChat.discover DemoChat.configurable)
      /\ exists response tool_call,
           fst (DemoChat.model
                  (bound_tools DemoChat.discover DemoChat.configurable)
                  (first_pass DemoChat.Args DemoChat.discover
                     DemoChat.chat_instructions "2025-01-01"
                     DemoChat.question DemoChat.configurable)
                  (Graph.world DemoChat.start))
           = inr response
           /\ In tool_call (Graph.tool_calls response)
           /\ Graph.name (Graph.mkTool "load_network"
                            "Load a pandapower network from a file.")
              = Graph.tc_name tool_call
           /\ [("file_path", "grid.json")]
              = args_of DemoChat.Args [] tool_call).
Proof.
  apply (only_requested_bound_tools_are_called DemoChat.Args DemoChat.World
           DemoChat.model DemoChat.transport DemoChat.discover []
           DemoChat.chat_instructions "2025-01-01" DemoChat.question
           DemoChat.configurable DemoChat.start).
  vm_compute. right. left. reflexivity.
Defined.

Lemma model_failure_ends_the_turn_in_demo :
  Graph.chat_node DemoChat.Args DemoChat.World DemoMore.model_down
    DemoChat.transport DemoChat.discover [] DemoChat.chat_instructions
    "2025-01-01" DemoChat.question DemoChat.configurable DemoChat.start
  = (Raise (mkExn OtherException "rate limit exceeded"),
     {| Graph.world := Panda.initial_session;
        Graph.events :=
          [Graph.EvModel (bound_tools DemoChat.discover DemoChat.configurable)
             (first_pass DemoChat.Args DemoChat.discover
                DemoChat.chat_instructions "2025-01-01" DemoChat.question
                DemoChat.configurable)] |}).
Proof.
  exact (proj1 (model_failure_ends_the_turn DemoChat.Args DemoChat.World
                  DemoMore.model_down DemoChat.transport DemoChat.discover []
                  DemoChat.chat_instructions "2025-01-01" DemoChat.question
                  DemoChat.configurable DemoChat.start)
           (mkExn OtherException "rate limit exceeded") Panda.initial_session
           eq_refl).
Defined.

Lemma environment_overrides_configurable_for_temperature :
  Config.kwarg (Config.values DemoMore.environ
                  (Config.configurable_of DemoMore.config)) "temperature"
  = Some (PyStr "0.2").
Proof.
  exact (proj1 (proj2 (environment_overrides_configurable _ DemoMore.cls
                         DemoMore.environ DemoMore.config "temperature"
                         (or_intror (or_introl eq_refl))))
           "0.2" eq_refl).
Defined.

Lemma nothing_set_means_defaults_in_an_empty_environment :
  Config.from_runnable_config _ DemoMore.cls ∅ None = DemoMore.cls [].
Proof.
  exact (proj1 (nothing_set_means_defaults _ DemoMore.cls ∅
                  (fun name _ => lookup_empty (upper name)))).
Defined.

(** The demo configuration: the environment sets the temperature, the
    configurable sets the model and leaves [enable_mcp] at [None]; the key
    [thread_id] and the variable [HOME] are not fields. *)
Example from_runnable_config_demo :
  Config.from_runnable_config _ DemoMore.cls DemoMore.environ DemoMore.config
  = inr [("chat_model", PyStr "gpt-4o-mini"); ("temperature", PyStr "0.2")].
Proof. vm_compute. reflexivity. Qed.

Lemma client_is_built_once_in_demo :
  McpClient.get_mcp_client "/srv/backend/src" true DemoMore.mcp_servers None
  = (Ok (Some DemoMore.client), Some DemoMore.client)
  /\ McpClient.get_mcp_client "/srv/backend/src" false DemoMore.broken_servers
       (snd (McpClient.get_mcp_client "/srv/backend/src" true
               DemoMore.mcp_servers None))
     = (Ok (Some DemoMore.client), Some DemoMore.client).
Proof.
  exact (client_is_built_once "/srv/backend/src" DemoMore.mcp_servers
           DemoMore.client false DemoMore.broken_servers eq_refl).
Defined.

Lemma every_server_gets_a_working_directory_in_demo :
  List.map fst DemoMore.client = ["pandapower"].
Proof.
  exact (proj1 (every_server_gets_a_working_directory "/srv/backend/src"
                  DemoMore.mcp_servers DemoMore.client eq_refl)).
Defined.

Lemma missing_cwd_means_no_client_and_no_tools_in_demo :
  McpClient.get_mcp_client "/srv/backend/src" true DemoMore.broken_servers None
  = (Raise (mkExn KeyError "'cwd'"), None)
  /\ McpClient.get_mcp_tools "/srv/backend/src" Graph.Tool DemoMore.get_tools
       true DemoMore.broken_servers None
     = ([], None).
Proof.
  apply (missing_cwd_means_no_client_and_no_tools "/srv/backend/src"
           DemoMore.get_tools DemoMore.broken_servers).
  apply Exists_cons_tl, Exists_cons_hd. reflexivity.
Defined.

Lemma failed_discovery_keeps_the_client_in_demo :
  McpClient.get_mcp_tools "/srv/backend/src" Graph.Tool DemoMore.get_tools_down
    true DemoMore.mcp_servers None
  = ([], Some DemoMore.client)
  /\ McpClient.get_mcp_tools "/srv/backend/src" Graph.Tool
       DemoMore.get_tools_down true DemoMore.broken_servers
       (Some DemoMore.client)
     = ([], Some DemoMore.client).
Proof.
  exact (failed_discovery_keeps_the_client "/srv/backend/src"
           DemoMore.get_tools_down DemoMore.mcp_servers DemoMore.broken_servers
           DemoMore.client (mkExn OtherException "connection refused")
           eq_refl eq_refl).
Defined.

(** In the demo turn the last response asks for one more tool; what is
    returned is its content alone. *)
Lemma turn_returns_one_plain_assistant_message_in_demo :
  exists last : Graph.Response DemoChat.Args,
    fst (DemoChat.run DemoChat.configurable)
    = Ok [Graph.AIMessage (Graph.content last) []]
    /\ Graph.content last = "The power flow converged."
    /\ Graph.tool_calls last
       = [Graph.mkCall "run_contingency_analysis" (Some "call_4") None].
Proof.
  destruct (turn_returns_one_plain_assistant_message DemoChat.Args
              DemoChat.World DemoChat.model DemoChat.transport
              DemoChat.discover [] DemoChat.chat_instructions "2025-01-01"
              DemoChat.question DemoChat.configurable DemoChat.start
              [Graph.AIMessage "The power flow converged." []] eq_refl)
    as [last [Hret [[Hfirst [Hnone _]]
                   | [response [tool_messages
                        [Hfirst [_ [Hmsgs [_ [_ [Hsecond _]]]]]]]]]]].
  - vm_compute in Hfirst. injection Hfirst as <-. discriminate Hnone.
  - vm_compute in Hfirst. injection Hfirst as <-.
    subst tool_messages. vm_compute in Hsecond. injection Hsecond as <-.
    eexists. split; [reflexivity | ]. split; reflexivity.
Defined.

(** The grid with line 5 out of service, whose solve does not converge,
    under a solver that behaves like pandapower: the tool answers with an
    error-status result that carries no [converged] flag. *)
Lemma nonconvergence_is_reported_as_an_error_on_weak_grid :
  fst (Panda.run_power_flow DemoLibrary.runpp Panda.default_params
         Demo.weak_session)
  = {| Panda.status := Panda.error;
       Panda.message :=
         "Power flow calculation failed: Power Flow nr did not converge after 10 iterations!";
       Panda.payload := Panda.NoPayload |}
  /\ converged_flag
       (fst (Panda.run_power_flow DemoLibrary.runpp Panda.default_params
               Demo.weak_session)) = None.
Proof.
  exact (proj1 (nonconvergence_is_reported_as_an_error DemoLibrary.runpp
                  Panda.default_params Demo.weak_session 0 Demo.weak_grid
                  (conj eq_refl eq_refl))
           "Power Flow nr did not converge after 10 iterations!" eq_refl).
Defined.
